(** * Raspberry Pi performance monitor: sampling core

    A shallow embedding of [main.py]: the two stateful samplers
    ([RaspberryMonitor], [PowerMonitor]) and the body of one iteration of
    the monitoring loop, followed by the properties of the specification
    that are about them.

    Conventions of the embedding.
    - A Python [int] is a [Z]; [&] and [>>] are [Z.land] and [Z.shiftr]
      (both agree with Python on negative numbers, which Python treats as
      infinite two's complement).
    - A Python [float] is represented by the rational number it denotes.
      The true division [a / b] of two ints is the exact quotient; binary64
      rounding is not modelled.  The values the properties name (0, 2, 75,
      100) are exact in binary64.
    - A Python [str] is a [string] of ASCII characters.
    - A dict is a [gmap] with [string] keys.
    - A call either returns or raises: [res A].  A method of an object is a
      function from the object's fields to an outcome and the fields after
      the call; what was assigned before an exception stays assigned.
    - Calls to [logging] have no effect on any value and are left out. *)

From Stdlib Require Import ZArith QArith Lia Lqa Ascii String.
From stdpp Require Import gmap strings list fin_maps.

Open Scope Z_scope.

(** ** Outcomes of a call *)

(** The built-in exceptions that the modelled code can raise.  All of them
    are subclasses of [Exception]; [OSError] is what a failed system call or
    a failed [open] raises ([IOError] is its alias). *)
Inductive exn : Type :=
  | TypeError
  | ValueError
  | IndexError
  | KeyError
  | ZeroDivisionError
  | OSError.

Inductive res (A : Type) : Type :=
  | Ret (a : A)
  | Raise (e : exn).

Arguments Ret {A} a.
Arguments Raise {A} e.

Definition res_bind {A B : Type} (r : res A) (k : A -> res B) : res B :=
  match r with
  | Ret a => k a
  | Raise e => Raise e
  end.

(** A method: fields before the call to outcome and fields after it. *)
Definition M (S A : Type) : Type := S -> res A * S.

Definition ret {S A : Type} (a : A) : M S A := fun s => (Ret a, s).

Definition bind {S A B : Type} (m : M S A) (k : A -> M S B) : M S B :=
  fun s =>
    match m s with
    | (Ret a, s') => k a s'
    | (Raise e, s') => (Raise e, s')
    end.

Definition lift {S A : Type} (r : res A) : M S A := fun s => (r, s).

Definition gets {S A : Type} (f : S -> A) : M S A := fun s => (Ret (f s), s).

Definition modify {S : Type} (f : S -> S) : M S unit := fun s => (Ret tt, f s).

Declare Scope py_scope.
Delimit Scope py_scope with py.

Notation "'let!' x ':=' m 'in' k" := (bind m (fun x => k))
  (at level 10, x name, m at level 100, k at level 200,
   format "'[v' 'let!'  x  ':='  m  'in' '/' k ']'") : py_scope.
Notation "'do!' m 'in' k" := (bind m (fun _ => k))
  (at level 10, m at level 100, k at level 200,
   format "'[v' 'do!'  m  'in' '/' k ']'") : py_scope.
Notation "'let?' x ':=' r 'in' k" := (res_bind r (fun x => k))
  (at level 10, x name, r at level 100, k at level 200,
   format "'[v' 'let?'  x  ':='  r  'in' '/' k ']'") : py_scope.

(** ** Python built-ins used by the program *)

Module Py.

(** Numbers the samplers return: an [int] or a [float]. *)
Inductive num : Type :=
  | Int (z : Z)
  | Float (q : Q).

(** The number denoted; Python's [==] between an int and a float compares
    these. *)
Definition value (n : num) : Q :=
  match n with
  | Int z => inject_Z z
  | Float q => q
  end.

(** [a / b] on two ints. *)
Definition truediv (a b : Z) : res Q :=
  if decide (b = 0) then Raise ZeroDivisionError
  else Ret (inject_Z a / inject_Z b)%Q.

(** [sum(l)] on a list of ints. *)
Definition sum (l : list Z) : Z := foldr Z.add 0 l.

(** [l[i]] for a non-negative literal index. *)
Definition index {A : Type} (l : list A) (i : nat) : res A :=
  match l !! i with
  | Some a => Ret a
  | None => Raise IndexError
  end.

(** [d[k]] on a dict. *)
Definition getitem {V : Type} (d : gmap string V) (k : string) : res V :=
  match d !! k with
  | Some v => Ret v
  | None => Raise KeyError
  end.

(** [d.get(k, dflt)]. *)
Definition get {V : Type} (d : gmap string V) (k : string) (dflt : V) : V :=
  default dflt (d !! k).

(** ASCII whitespace as [str.isspace] has it: tab, line feed, vertical
    tab, form feed, carriage return, the four separators 28..31, space. *)
Definition isspace (c : ascii) : bool :=
  let n := Z.of_nat (nat_of_ascii c) in
  ((9 <=? n) && (n <=? 13)) || ((28 <=? n) && (n <=? 32)).

Fixpoint lstrip (l : list ascii) : list ascii :=
  match l with
  | c :: l' => if isspace c then lstrip l' else l
  | [] => []
  end.

(** [s.strip()]. *)
Definition strip_chars (l : list ascii) : list ascii :=
  rev (lstrip (rev (lstrip l))).

Definition strip (s : string) : string :=
  string_of_list_ascii (strip_chars (list_ascii_of_string s)).

(** [s.split()]: the maximal runs of non-whitespace characters.  [word]
    holds the characters of the run being read, last one first. *)
Fixpoint split_chars (word : list ascii) (l : list ascii) : list (list ascii) :=
  let flush := match word with [] => [] | _ => [rev word] end in
  match l with
  | [] => flush
  | c :: l' =>
      if isspace c then flush ++ split_chars [] l'
      else split_chars (c :: word) l'
  end.

Definition split (s : string) : list string :=
  string_of_list_ascii <$> split_chars [] (list_ascii_of_string s).

Definition isdigit (c : ascii) : bool :=
  let n := Z.of_nat (nat_of_ascii c) in (48 <=? n) && (n <=? 57).

Definition digit (c : ascii) : Z := Z.of_nat (nat_of_ascii c) - 48.

(** Digits of a decimal literal; a single underscore may stand between
    two digits.  [after_digit] tells whether the last character read was
    a digit. *)
Fixpoint int_digits (acc : Z) (after_digit : bool) (l : list ascii) : option Z :=
  match l with
  | [] => if after_digit then Some acc else None
  | c :: l' =>
      if isdigit c then int_digits (10 * acc + digit c) true l'
      else if decide (c = "_"%char) then
        if after_digit then int_digits acc false l' else None
      else None
  end.

(** [int(s)] on a str, base 10: surrounding whitespace is dropped, one
    sign is allowed, and at least one digit is required. *)
Definition int (s : string) : res Z :=
  let body := strip_chars (list_ascii_of_string s) in
  let signed :=
    match body with
    | "-"%char :: l => (-1, l)
    | "+"%char :: l => (1, l)
    | _ => (1, body)
    end in
  match int_digits 0 false signed.2 with
  | Some n => Ret (signed.1 * n)
  | None => Raise ValueError
  end.

(** [[f(x) for x in l]] where [f] may raise: the first exception ends
    the comprehension. *)
Fixpoint comprehension {A B : Type} (f : A -> res B) (l : list A) : res (list B) :=
  match l with
  | [] => Ret []
  | a :: l' =>
      match f a with
      | Ret b =>
          match comprehension f l' with
          | Ret bs => Ret (b :: bs)
          | Raise e => Raise e
          end
      | Raise e => Raise e
      end
  end.

(** Values that meet in [get_power_status]: a str or a list of str. *)
Inductive obj : Type :=
  | Str (s : string)
  | List (l : list string).

(** Truth value of an object: empty strings and empty lists are false. *)
Definition truthy (o : obj) : bool :=
  match o with
  | Str s => negb (String.eqb s EmptyString)
  | List l => match l with [] => false | _ => true end
  end.

(** [a + b]: concatenation of two strs or of two lists; a str and a list
    do not add. *)
Definition add (a b : obj) : res obj :=
  match a, b with
  | Str s, Str t => Ret (Str (s +:+ t))
  | List l, List k => Ret (List (l ++ k))
  | _, _ => Raise TypeError
  end.

(** The items that iterating over an object yields: the characters of a
    str, the elements of a list. *)
Definition iter (o : obj) : list string :=
  match o with
  | Str s => (fun c => String c EmptyString) <$> list_ascii_of_string s
  | List l => l
  end.

(** [sep.join(o)]. *)
Definition join (sep : string) (o : obj) : string :=
  match iter o with
  | [] => EmptyString
  | x :: xs => foldl (fun acc y => acc +:+ sep +:+ y) x xs
  end.

(** [s.rstrip(c)] for a single character [c]: the trailing run of [c] is
    dropped. *)
Fixpoint lstrip_char (c : ascii) (l : list ascii) : list ascii :=
  match l with
  | d :: l' => if decide (d = c) then lstrip_char c l' else l
  | [] => []
  end.

Definition rstrip_char (c : ascii) (s : string) : string :=
  string_of_list_ascii (rev (lstrip_char c (rev (list_ascii_of_string s)))).

(** [int(q)] on a float: the integer part, rounding toward zero. *)
Definition trunc (q : Q) : Z := Z.quot (Qnum q) (Zpos (Qden q)).

(** [s.split(sep)] for a single character [sep]: the pieces between the
    occurrences of [sep], empty ones included. [piece] holds the characters
    of the piece being read, last one first. *)
Fixpoint split_sep_chars (sep : ascii) (piece : list ascii) (l : list ascii)
    : list (list ascii) :=
  match l with
  | [] => [rev piece]
  | c :: l' =>
      if decide (c = sep) then rev piece :: split_sep_chars sep [] l'
      else split_sep_chars sep (c :: piece) l'
  end.

Definition split_sep (sep : ascii) (s : string) : list string :=
  string_of_list_ascii <$> split_sep_chars sep [] (list_ascii_of_string s).

(** The value of a character as a digit: 0-9, then a-z or A-Z for 10-35. *)
Definition digit_value (c : ascii) : option Z :=
  let n := Z.of_nat (nat_of_ascii c) in
  if (48 <=? n) && (n <=? 57) then Some (n - 48)
  else if (97 <=? n) && (n <=? 122) then Some (n - 87)
  else if (65 <=? n) && (n <=? 90) then Some (n - 55)
  else None.

(** Digits of a literal in base [base], with single underscores between
    digits, as [int_digits] has them for base 10. *)
Fixpoint base_digits (base acc : Z) (after_digit : bool) (l : list ascii) : option Z :=
  match l with
  | [] => if after_digit then Some acc else None
  | c :: l' =>
      match digit_value c with
      | Some d =>
          if d <? base then base_digits base (base * acc + d) true l' else None
      | None =>
          if decide (c = "_"%char) then
            if after_digit then base_digits base acc false l' else None
          else None
      end
  end.

(** After a base prefix one underscore may come before the digits. *)
Definition after_prefix (l : list ascii) : list ascii :=
  match l with
  | "_"%char :: l' => l'
  | _ => l
  end.

(** The unsigned part of a literal for [int(s, 0)]: a prefix 0x, 0o or 0b
    in either case selects the base; without one the literal is decimal,
    and may start with 0 only when its value is 0. *)
Definition literal0 (l : list ascii) : option Z :=
  match l with
  | "0"%char :: "x"%char :: l' | "0"%char :: "X"%char :: l' =>
      base_digits 16 0 false (after_prefix l')
  | "0"%char :: "o"%char :: l' | "0"%char :: "O"%char :: l' =>
      base_digits 8 0 false (after_prefix l')
  | "0"%char :: "b"%char :: l' | "0"%char :: "B"%char :: l' =>
      base_digits 2 0 false (after_prefix l')
  | "0"%char :: _ =>
      match base_digits 10 0 false l with
      | Some 0 => Some 0
      | _ => None
      end
  | _ => base_digits 10 0 false l
  end.

(** [int(s, 0)] on a str. *)
Definition int0 (s : string) : res Z :=
  let body := strip_chars (list_ascii_of_string s) in
  let signed :=
    match body with
    | "-"%char :: l => (-1, l)
    | "+"%char :: l => (1, l)
    | _ => (1, body)
    end in
  match literal0 signed.2 with
  | Some n => Ret (signed.1 * n)
  | None => Raise ValueError
  end.

(** Line boundaries of [str.splitlines] among the ASCII characters: line
    feed, vertical tab, form feed, carriage return and the separators 28 to
    30. *)
Definition islinebreak (c : ascii) : bool :=
  let n := Z.of_nat (nat_of_ascii c) in
  ((10 <=? n) && (n <=? 13)) || ((28 <=? n) && (n <=? 30)).

(** [s.splitlines()]: the lines without their boundaries; a carriage
    return followed by a line feed is one boundary, and a boundary at the
    end opens no further line. [line] holds the characters of the line
    being read, last one first. *)
Fixpoint splitlines_chars (line : list ascii) (l : list ascii) : list (list ascii) :=
  match l with
  | [] => match line with [] => [] | _ => [rev line] end
  | c :: l' =>
      if islinebreak c then
        match c, l' with
        | "013"%char, "010"%char :: l'' => rev line :: splitlines_chars [] l''
        | _, _ => rev line :: splitlines_chars [] l'
        end
      else splitlines_chars (c :: line) l'
  end.

Definition splitlines (s : string) : list string :=
  string_of_list_ascii <$> splitlines_chars [] (list_ascii_of_string s).

Fixpoint startswith_chars (p l : list ascii) : bool :=
  match p, l with
  | [], _ => true
  | c :: p', d :: l' => if decide (c = d) then startswith_chars p' l' else false
  | _ :: _, [] => false
  end.

Fixpoint contains_chars (p l : list ascii) : bool :=
  startswith_chars p l ||
  match l with
  | [] => false
  | _ :: l' => contains_chars p l'
  end.

(** [p in s] on two strs: [p] occurs in [s] as a substring. *)
Definition contains (p s : string) : bool :=
  contains_chars (list_ascii_of_string p) (list_ascii_of_string s).

(** [l.index(x)]: the position of the first element equal to [x]. *)
Fixpoint list_index (x : string) (l : list string) : res nat :=
  match l with
  | [] => Raise ValueError
  | y :: l' =>
      if decide (y = x) then Ret 0%nat
      else match list_index x l' with
           | Ret i => Ret (S i)
           | Raise e => Raise e
           end
  end.

End Py.

(** [try: body except Exception: handler]. *)
Definition try_except {A : Type} (body : res A) (handler : exn -> res A) : res A :=
  match body with
  | Ret a => Ret a
  | Raise e => handler e
  end.

(** ** What the program reads from the system during one call

    The outcomes of the system calls and library calls the samplers make.
    Three methods of the source only wrap such a call in a [try] that
    catches every [Exception]; they never raise, and the record holds their
    outcome:
    - [ip_route_interface]: what [get_active_network_interface] returns
      (lines 24-39; the interface of the default route, or the fallback
      "wlan0");
    - [vcgencmd_throttled]: what [get_throttled_status] returns (lines
      159-172; the throttled word, or [None] when the command failed or
      its output did not parse). *)
Record World : Type := mkWorld {
  (** first line of each readable file, as [readline] gives it; [open]
      raises [IOError] for the other paths *)
  files : gmap string string;
  ip_route_interface : string;
  (** [CPUTemperature().temperature] *)
  sensor_temperature : res Q;
  (** [shutil.disk_usage("/")]: total, used, free *)
  shutil_disk_usage : res (Z * Z * Z);
  vcgencmd_throttled : option Z
}.

(** ** class RaspberryMonitor *)

Record RaspberryMonitor : Type := mkRaspberryMonitor {
  prev_cpu_stats : option (list Z);
  prev_net_stats : gmap string Z;
  mem_info : gmap string Z;
  net_interface : string
}.

Definition set_prev_cpu_stats (v : option (list Z)) (self : RaspberryMonitor) :=
  mkRaspberryMonitor v (prev_net_stats self) (mem_info self) (net_interface self).

Definition set_prev_net_stats (v : gmap string Z) (self : RaspberryMonitor) :=
  mkRaspberryMonitor (prev_cpu_stats self) v (mem_info self) (net_interface self).

Definition set_net_interface (v : string) (self : RaspberryMonitor) :=
  mkRaspberryMonitor (prev_cpu_stats self) (prev_net_stats self) (mem_info self) v.

(** [__init__] (lines 17-22).  [memory_info] is what [get_memory_info()]
    returned; the interface is resolved as in every later call. *)
Definition init (w : World) (memory_info : gmap string Z) : RaspberryMonitor :=
  {| prev_cpu_stats := None;
     prev_net_stats := {[ "rx"%string := 0; "tx"%string := 0 ]};
     mem_info := memory_info;
     net_interface := ip_route_interface w |}.

Definition get_active_network_interface (w : World) : string :=
  ip_route_interface w.

(** [get_first_line] (lines 55-64): the stripped first line, or the empty
    string when the file cannot be opened. *)
Definition get_first_line (w : World) (path : string) : string :=
  match files w !! path with
  | Some line => Py.strip line
  | None => EmptyString
  end.

Definition statistics_path (interface counter : string) : string :=
  "/sys/class/net/" +:+ interface +:+ "/statistics/" +:+ counter.

Open Scope py_scope.

(** [get_network_speed] (lines 41-53). *)
Definition get_network_speed (w : World) : M RaspberryMonitor (Py.num * Py.num) :=
  do! modify (set_net_interface (get_active_network_interface w)) in
  let! interface := gets net_interface in
  let! rx_bytes := lift (Py.int (get_first_line w (statistics_path interface "rx_bytes"))) in
  let! tx_bytes := lift (Py.int (get_first_line w (statistics_path interface "tx_bytes"))) in
  let! prev := gets prev_net_stats in
  let! prev_rx := lift (Py.getitem prev "rx") in
  let! rx_speed_kb := lift (Py.truediv (rx_bytes - prev_rx) 1024) in
  let! prev_tx := lift (Py.getitem prev "tx") in
  let! tx_speed_kb := lift (Py.truediv (tx_bytes - prev_tx) 1024) in
  do! modify (set_prev_net_stats (<["rx"%string := rx_bytes]> (<["tx"%string := tx_bytes]> prev))) in
  ret (Py.Float rx_speed_kb, Py.Float tx_speed_kb).

(** Lines 70-71: the fields of the first line of /proc/stat after its
    label. *)
Definition read_cpu_stats (w : World) : res (list Z) :=
  let line := get_first_line w "/proc/stat" in
  Py.comprehension Py.int (drop 1 (Py.split line)).

(** Lines 73-82, on the sample just read.  The test
    [not self.prev_cpu_stats] holds for [None] and for the empty list. *)
Definition cpu_usage_from (cpu_stats : list Z) : M RaspberryMonitor Py.num :=
  let! prev := gets prev_cpu_stats in
  match prev with
  | None | Some [] =>
      do! modify (set_prev_cpu_stats (Some cpu_stats)) in
      ret (Py.Float 0)
  | Some prev_stats =>
      let deltas := zip_with Z.sub cpu_stats prev_stats in
      let total_time := Py.sum deltas in
      let! idle_time := lift (Py.index deltas 3) in
      do! modify (set_prev_cpu_stats (Some cpu_stats)) in
      if decide (total_time = 0) then ret (Py.Int 0)
      else
        let! ratio := lift (Py.truediv idle_time total_time) in
        ret (Py.Float ((1 - ratio) * 100)%Q)
  end.

(** [get_cpu_usage] (lines 66-82). *)
Definition get_cpu_usage (w : World) : M RaspberryMonitor Py.num :=
  let! cpu_stats := lift (read_cpu_stats w) in
  cpu_usage_from cpu_stats.

(** [get_cpu_temp] (lines 84-88). *)
Definition get_cpu_temp (w : World) : M RaspberryMonitor Q :=
  lift (sensor_temperature w).

(** [get_ram_usage] (lines 104-111). *)
Definition get_ram_usage : M RaspberryMonitor Py.num :=
  let! info := gets mem_info in
  let total_memory := Py.get info "MemTotal" 1 in
  let available_memory := Py.get info "MemAvailable" 0 in
  let used_memory := total_memory - available_memory in
  let! ratio := lift (Py.truediv used_memory total_memory) in
  ret (Py.Float (ratio * 100)%Q).

(** [get_disk_usage] (lines 113-123); [None] is Python's [None]. *)
Definition get_disk_usage (w : World) : M RaspberryMonitor (option Py.num) :=
  lift (try_except
          (let? usage := shutil_disk_usage w in
           let total := usage.1.1 in
           let used := usage.1.2 in
           let? usage_percent :=
             (if decide (total = 0) then Ret (Py.Int 0)
              else let? ratio := Py.truediv used total in
                   Ret (Py.Float (ratio * 100)%Q)) in
           Ret (Some usage_percent))
          (fun _ => Ret None)).

(** ** class PowerMonitor *)

Record PowerMonitor : Type := mkPowerMonitor {
  last_throttled : option Z
}.

(** [__init__] (lines 130-131). *)
Definition power_init : PowerMonitor := {| last_throttled := None |}.

Definition get_throttled_status (w : World) : option Z :=
  vcgencmd_throttled w.

(** [v & mask] where [v] is an int or [None]. *)
Definition and_mask (v : option Z) (mask : Z) : res Z :=
  match v with
  | Some z => Ret (Z.land z mask)
  | None => Raise TypeError
  end.

(** [analyze_throttled] (lines 174-186).  The argument is whatever the
    caller passes: an int, or the [None] of [get_throttled_status]. *)
Definition analyze_throttled (throttled_value : option Z) : res string :=
  let? b0 := and_mask throttled_value 0x1 in
  if decide (b0 <> 0) then Ret "Undervolt"%string else
  let? b1 := and_mask throttled_value 0x2 in
  if decide (b1 <> 0) then Ret "Freq cap"%string else
  let? b2 := and_mask throttled_value 0x4 in
  if decide (b2 <> 0) then Ret "Throttled"%string else
  let? b3 := and_mask throttled_value 0x8 in
  if decide (b3 <> 0) then Ret "Temp limit"%string else
  Ret "OK"%string.

(** [get_power_status] (lines 133-157). *)
Definition get_power_status (w : World) : M PowerMonitor string :=
  let throttled_value := get_throttled_status w in
  match throttled_value with
  | None => ret "Unable to determine power status"%string
  | Some v =>
      let! last := gets last_throttled in
      match last with
      | None =>
          do! modify (fun _ => mkPowerMonitor (Some v)) in
          ret "Checking status"%string
      | Some l =>
          do! (if decide (l <> v) then modify (fun _ => mkPowerMonitor (Some v))
               else ret tt) in
          let! current_issues := lift (analyze_throttled (Some (Z.land v 0xffff))) in
          let! past_issues := lift (analyze_throttled (Some (Z.shiftr v 16))) in
          let! past_part :=
            lift (if Py.truthy (Py.Str past_issues)
                  then Py.add (Py.List ["Past Issues:"%string]) (Py.Str past_issues)
                  else Ret (Py.List [])) in
          let! combined_issues := lift (Py.add (Py.Str current_issues) past_part) in
          if Py.truthy (Py.Str current_issues)
          then ret (Py.join "; " (Py.Str current_issues))
          else ret "OK"%string
      end
  end.

(** ** One iteration of the loop of [raspberry_monitor] *)

Record Loop : Type := mkLoop {
  monitor : RaspberryMonitor;
  power_monitor : PowerMonitor
}.

(** A method call on the [monitor] object of the loop. *)
Definition on_monitor {A : Type} (m : M RaspberryMonitor A) : M Loop A :=
  fun s => let r := m (monitor s) in (r.1, mkLoop r.2 (power_monitor s)).

(** The arguments that the iteration hands to [display.update_display]. *)
Record Metrics : Type := mkMetrics {
  cpu_temp : Q;
  cpu_usage : Py.num;
  ram_usage : Py.num;
  disk_usage : option Py.num;
  download_speed : Py.num;
  power_status : string
}.

(** Lines 244-250: the samples of one iteration, up to the call of the
    display.  Drawing and sleeping are outside the embedding. *)
Definition tick (w : World) : M Loop Metrics :=
  let! cpu_temp := on_monitor (get_cpu_temp w) in
  let! cpu_usage := on_monitor (get_cpu_usage w) in
  let! ram_usage := on_monitor get_ram_usage in
  let! disk_usage := on_monitor (get_disk_usage w) in
  let! speeds := on_monitor (get_network_speed w) in
  let throttled_value := get_throttled_status w in
  let! power_status := lift (analyze_throttled throttled_value) in
  ret (mkMetrics cpu_temp cpu_usage ram_usage disk_usage speeds.1 power_status).

(** ** Sample readings

    Concrete readings used to run the definitions: a board whose files are
    all readable, the same board when [vcgencmd] fails, when the byte
    counter of the interface cannot be read, and when /proc/stat cannot be
    read. *)

Definition nl : string := String "010"%char EmptyString.

Definition board_files : gmap string string :=
  {[ "/proc/stat"%string := ("cpu  4705 150 1120 16250 520 0 30 0 0 0" +:+ nl)%string;
     "/sys/class/net/wlan0/statistics/rx_bytes"%string := ("3072" +:+ nl)%string;
     "/sys/class/net/wlan0/statistics/tx_bytes"%string := ("2048" +:+ nl)%string ]}.

Definition board : World :=
  {| files := board_files;
     ip_route_interface := "wlan0";
     sensor_temperature := Ret (48 # 1)%Q;
     shutil_disk_usage := Ret (32000, 8000, 24000);
     vcgencmd_throttled := Some 0 |}.

Definition with_throttled (t : option Z) (w : World) : World :=
  mkWorld (files w) (ip_route_interface w) (sensor_temperature w)
          (shutil_disk_usage w) t.

Definition with_disk_usage (d : res (Z * Z * Z)) (w : World) : World :=
  mkWorld (files w) (ip_route_interface w) (sensor_temperature w) d
          (vcgencmd_throttled w).

Definition without_file (path : string) (w : World) : World :=
  mkWorld (delete path (files w)) (ip_route_interface w) (sensor_temperature w)
          (shutil_disk_usage w) (vcgencmd_throttled w).

Definition board_mem_info : gmap string Z :=
  {[ "MemTotal"%string := 2000; "MemAvailable"%string := 500 ]}.

(** The objects of the loop as lines 238-239 construct them. *)
Definition fresh_loop (w : World) (memory_info : gmap string Z) : Loop :=
  {| monitor := init w memory_info; power_monitor := power_init |}.

(** ** Vocabulary of the properties *)

(** The label of the first set bit among bits 0 to 3, in that order. *)
Definition first_issue (v : Z) : string :=
  if Z.testbit v 0 then "Undervolt"
  else if Z.testbit v 1 then "Freq cap"
  else if Z.testbit v 2 then "Throttled"
  else if Z.testbit v 3 then "Temp limit"
  else "OK".

Definition labels : list string :=
  ["Undervolt"; "Freq cap"; "Throttled"; "Temp limit"; "OK"]%string.

(** The byte counters that a call reads: the interface is resolved first,
    then its two counter files are read and converted. *)
Definition reads_counters (w : World) (rx tx : Z) : Prop :=
  Py.int (get_first_line w (statistics_path (ip_route_interface w) "rx_bytes")) = Ret rx /\
  Py.int (get_first_line w (statistics_path (ip_route_interface w) "tx_bytes")) = Ret tx.

(** Both counters are stored under their keys. *)
Definition has_counters (self : RaspberryMonitor) : Prop :=
  is_Some (prev_net_stats self !! "rx"%string) /\
  is_Some (prev_net_stats self !! "tx"%string).



(** A method of the monitor that leaves the memory snapshot alone. *)
Definition keeps_snapshot {A : Type} (m : M RaspberryMonitor A) : Prop :=
  forall self, mem_info (m self).2 = mem_info self.

(** A step of the loop that leaves the memory snapshot and the
    [PowerMonitor] alone. *)
Definition keeps_loop {A : Type} (m : M Loop A) : Prop :=
  forall s, mem_info (monitor (m s).2) = mem_info (monitor s) /\
            power_monitor (m s).2 = power_monitor s.

(** ** Reading /proc/meminfo *)

(** Line 98-99 on one line of the file: the first two fields, the key
    without its trailing colons and the value as an integer. The unpacking
    [key, value, *_ = line.split()] raises [ValueError] on fewer than two
    fields. *)
Definition meminfo_entry (line : string) : res (string * Z) :=
  match Py.split line with
  | key :: value :: _ =>
      let? n := Py.int value in
      Ret (Py.rstrip_char ":" key, n)
  | _ => Raise ValueError
  end.

(** The loop of lines 97-99 over the lines of the file. *)
Fixpoint meminfo_lines (lines : list string) (memory_info : gmap string Z)
    : res (gmap string Z) :=
  match lines with
  | [] => Ret memory_info
  | line :: rest =>
      let? entry := meminfo_entry line in
      meminfo_lines rest (<[entry.1 := entry.2]> memory_info)
  end.

(** [get_memory_info] (lines 90-102). [proc_meminfo] is the content of
    /proc/meminfo as the lines that iterating over the file yields, or
    [None] when [open] raises [IOError]; only that exception is caught. *)
Definition get_memory_info (proc_meminfo : option (list string)) : res (gmap string Z) :=
  match proc_meminfo with
  | None => Ret ∅
  | Some lines => meminfo_lines lines ∅
  end.

(** ** class OledDisplay: the progress bars *)

Definition TEXT_COLOR : string := "white".
Definition BAR_WIDTH : Z := 62.
Definition BAR_HEIGHT : Z := 7.

(** A call of [draw.rectangle]: the corners and the two colours. *)
Record Rectangle : Type := mkRectangle {
  x0 : Z; y0 : Z; x1 : Z; y1 : Z;
  outline : option string;
  fill : option string
}.

(** Line 210: [int(self.BAR_WIDTH * percentage / 100)], where
    [percentage] is a number or [None]; an int does not multiply with
    [None]. *)
Definition fill_width (percentage : option Py.num) : res Z :=
  match percentage with
  | Some p => Ret (Py.trunc (inject_Z BAR_WIDTH * Py.value p / 100)%Q)
  | None => Raise TypeError
  end.

(** [draw_progress_bar] (lines 206-212): the rectangles drawn, in order. *)
Definition draw_progress_bar (x y : Z) (percentage : option Py.num)
    : res (list Rectangle) :=
  let? width := fill_width percentage in
  Ret [ mkRectangle x y (x + BAR_WIDTH) (y + BAR_HEIGHT) (Some TEXT_COLOR) None;
        mkRectangle x y (x + width) (y + BAR_HEIGHT) (Some TEXT_COLOR) (Some TEXT_COLOR) ].

(** Lines 219-221 of [update_display]: the three bars, drawn before any of
    the texts of lines 223-231. *)
Definition update_display_bars (cpu_usage ram_usage disk_usage : option Py.num)
    : res (list Rectangle) :=
  let? cpu_bar := draw_progress_bar 30 2 cpu_usage in
  let? ram_bar := draw_progress_bar 30 14 ram_usage in
  let? disk_bar := draw_progress_bar 30 26 disk_usage in
  Ret (cpu_bar ++ ram_bar ++ disk_bar).


(** ** The throttled query itself *)

(** [get_throttled_status] (lines 159-172) on the outcome of
    [subprocess.run(['vcgencmd', 'get_throttled'], ...)]: the return code
    and the standard output, or the exception that [run] raised. Every
    exception is caught. *)
Definition get_throttled_status_from (proc : res (Z * string)) : res (option Z) :=
  try_except
    (let? result := proc in
     if decide (result.1 = 0) then
       let? field := Py.index (Py.split_sep "=" result.2) 1 in
       let? value := Py.int0 field in
       Ret (Some value)
     else Ret None)
    (fun _ => Ret None).

(** A hexadecimal digit as [vcgencmd] prints it. *)
Definition hex_char (d : Z) : ascii :=
  if d <? 10 then ascii_of_nat (Z.to_nat (48 + d)) else ascii_of_nat (Z.to_nat (87 + d)).

(** The number that a sequence of digits denotes in base 16, first digit
    most significant. *)
Definition hex_number (ds : list Z) : Z := foldl (fun acc d => 16 * acc + d) 0 ds.

(** The output "throttled=0x<digits>" followed by a line feed. *)
Definition throttled_output (ds : list Z) : string :=
  string_of_list_ascii
    (list_ascii_of_string "throttled=0x" ++ (hex_char <$> ds) ++ ["010"%char]).


(** ** The interface of the default route *)

(** The loop of lines 31-34 over the lines of the output: the first line
    in which "dev" occurs decides, by the field that follows its first
    field "dev"; [None] when no line has "dev" in it. *)
Fixpoint interface_of_lines (lines : list string) : res (option string) :=
  match lines with
  | [] => Ret None
  | line :: rest =>
      if Py.contains "dev" line then
        let parts := Py.split line in
        let? i := Py.list_index "dev" parts in
        let? name := Py.index parts (S i) in
        Ret (Some name)
      else interface_of_lines rest
  end.

(** [get_active_network_interface] (lines 24-39) on the outcome of
    [subprocess.run(['ip', 'route', 'get', '1'], ...)]: the return code and
    the standard output, or the exception that [run] raised. Every
    exception is caught, and "wlan0" is returned when no name was. *)
Definition get_active_network_interface_from (proc : res (Z * string)) : string :=
  match
    try_except
      (let? process := proc in
       if decide (process.1 = 0) then interface_of_lines (Py.splitlines process.2)
       else Ret None)
      (fun _ => Ret None)
  with
  | Ret (Some name) => name
  | _ => "wlan0"
  end.


(** * Properties *)

(** ** Built-ins on sample inputs *)

Example int_empty : Py.int EmptyString = Raise ValueError.
Proof. reflexivity. Qed.

Example int_counter : Py.int "3072" = Ret 3072.
Proof. reflexivity. Qed.

Example int_signed : Py.int " -1_000 " = Ret (-1000).
Proof. reflexivity. Qed.

Example split_stat : Py.split "cpu  10 20 30 40" = ["cpu"; "10"; "20"; "30"; "40"]%string.
Proof. reflexivity. Qed.

Example join_str : Py.join "; " (Py.Str "OK") = "O; K"%string.
Proof. reflexivity. Qed.



(** ** Throttled bits *)

Lemma land_pow2 (v k : Z) :
  0 <= k -> Z.land v (2 ^ k) = if Z.testbit v k then 2 ^ k else 0.
Proof.
  intros Hk. apply Z.bits_inj'. intros n Hn.
  rewrite Z.land_spec, Z.pow2_bits_eqb by lia.
  destruct (Z.eqb_spec k n) as [-> | Hne].
  - destruct (Z.testbit v n); simpl.
    + rewrite Z.pow2_bits_eqb by lia. symmetry. apply Z.eqb_refl.
    + symmetry. apply Z.bits_0.
  - rewrite andb_false_r. destruct (Z.testbit v k).
    + rewrite Z.pow2_bits_eqb by lia. symmetry. now apply Z.eqb_neq.
    + symmetry. apply Z.bits_0.
Qed.

Lemma analyze_throttled_int (v : Z) :
  analyze_throttled (Some v) = Ret (first_issue v).
Proof.
  unfold analyze_throttled, first_issue, and_mask, res_bind.
  pose proof (land_pow2 v 0 ltac:(lia)) as H0.
  pose proof (land_pow2 v 1 ltac:(lia)) as H1.
  pose proof (land_pow2 v 2 ltac:(lia)) as H2.
  pose proof (land_pow2 v 3 ltac:(lia)) as H3.
  change (2 ^ 0) with 1 in H0. change (2 ^ 1) with 2 in H1.
  change (2 ^ 2) with 4 in H2. change (2 ^ 3) with 8 in H3.
  rewrite H0, H1, H2, H3.
  destruct (Z.testbit v 0); [reflexivity |].
  destruct (Z.testbit v 1); [reflexivity |].
  destruct (Z.testbit v 2); [reflexivity |].
  destruct (Z.testbit v 3); reflexivity.
Qed.

Lemma first_issue_label (v : Z) : first_issue v ∈ labels.
Proof.
  unfold first_issue, labels.
  repeat match goal with |- context [Z.testbit v ?k] => destruct (Z.testbit v k) end;
    set_solver.
Qed.

(** C6. For every integer, [analyze_throttled] returns the label of the
    first set bit in the order bit 0 (Undervolt), bit 1 (Freq cap), bit 2
    (Throttled), bit 3 (Temp limit), and "OK" when none of the four is set,
    whatever the other bits are; on 0b1001 = 9 it returns "Undervolt" and not
    "Temp limit". *)
Theorem analyze_throttled_priority :
  (forall v : Z, analyze_throttled (Some v) = Ret (first_issue v)) /\
  analyze_throttled (Some 9) = Ret "Undervolt"%string /\
  analyze_throttled (Some 9) <> Ret "Temp limit"%string.
Proof.
  split; [exact analyze_throttled_int |].
  split; [reflexivity | discriminate].
Qed.

(** C10. On a non-negative integer [analyze_throttled] returns, the label
    returned is one of the five, and two inputs that agree on bits 0 to 3
    get the same label. *)
Theorem analyze_throttled_total (v v' : Z) :
  0 <= v -> 0 <= v' ->
  (exists label, analyze_throttled (Some v) = Ret label /\ label ∈ labels) /\
  ((forall i, 0 <= i < 4 -> Z.testbit v i = Z.testbit v' i) ->
   analyze_throttled (Some v) = analyze_throttled (Some v')).
Proof.
  intros _ _. split.
  - exists (first_issue v). split; [apply analyze_throttled_int | apply first_issue_label].
  - intros Hbits. rewrite !analyze_throttled_int. unfold first_issue.
    rewrite (Hbits 0), (Hbits 1), (Hbits 2), (Hbits 3) by lia. reflexivity.
Qed.

Lemma analyze_throttled_total_witness :
  (exists label, analyze_throttled (Some 0x50005) = Ret label /\ label ∈ labels) /\
  ((forall i, 0 <= i < 4 -> Z.testbit 0x50005 i = Z.testbit 5 i) ->
   analyze_throttled (Some 0x50005) = analyze_throttled (Some 5)).
Proof. apply (analyze_throttled_total 0x50005 5); lia. Defined.

(** ** Power status *)

Lemma first_issue_truthy (v : Z) : Py.truthy (Py.Str (first_issue v)) = true.
Proof.
  unfold first_issue.
  repeat match goal with |- context [Z.testbit v ?k] => destruct (Z.testbit v k) end;
    reflexivity.
Qed.

(** Once a value is stored, a call that obtains a value never returns: the
    label of the past issues is a str, and a list and a str do not add. *)
Lemma get_power_status_stored (w : World) (v l : Z) :
  vcgencmd_throttled w = Some v ->
  (get_power_status w (mkPowerMonitor (Some l))).1 = Raise TypeError.
Proof.
  intros Hv. unfold get_power_status, get_throttled_status. rewrite Hv.
  unfold bind, gets, lift, modify, ret. simpl.
  rewrite !analyze_throttled_int.
  pose proof (first_issue_truthy (Z.shiftr v 16)) as Hpast.
  unfold Py.truthy in Hpast. rewrite Hpast.
  destruct (decide (l <> v)); reflexivity.
Qed.

(** C1. On a fresh [PowerMonitor], the first call that obtains a value [v]
    stores it and returns "Checking status" whatever [v] is; the second
    call that obtains the same value raises [TypeError], also for [v = 0],
    where "OK" was to be returned. *)
Theorem get_power_status_second_call (fs : gmap string string) (i : string)
    (t : res Q) (d : res (Z * Z * Z)) (v : Z) :
  let w := mkWorld fs i t d (Some v) in
  get_power_status w power_init = (Ret "Checking status"%string, mkPowerMonitor (Some v)) /\
  get_power_status w (mkPowerMonitor (Some v)) = (Raise TypeError, mkPowerMonitor (Some v)).
Proof.
  intros w. split; [reflexivity |].
  pose proof (get_power_status_stored w v v eq_refl) as H.
  destruct (get_power_status w (mkPowerMonitor (Some v))) as [r s] eqn:E.
  simpl in H. subst r. f_equal.
  revert E. unfold get_power_status, get_throttled_status, w; simpl.
  unfold bind, gets, lift, modify, ret; simpl.
  rewrite !analyze_throttled_int.
  destruct (decide (v <> v)) as [Hne | _]; [congruence |].
  pose proof (first_issue_truthy (Z.shiftr v 16)) as Hpast.
  unfold Py.truthy in Hpast. rewrite Hpast.
  intros [= <-]. reflexivity.
Qed.

(** ** One iteration with a failed read *)

(** C2. An iteration in which one read fails does not return.  When the
    throttled query gives [None], [analyze_throttled] raises [TypeError];
    when a byte counter cannot be read, [get_network_speed] raises
    [ValueError] on the empty string; when /proc/stat cannot be read after
    a sample was stored, [get_cpu_usage] raises [IndexError]. *)
Theorem tick_failed_read_raises :
  (tick (with_throttled None board) (fresh_loop board board_mem_info)).1
    = Raise TypeError /\
  (tick (without_file "/sys/class/net/wlan0/statistics/rx_bytes" board)
        (fresh_loop board board_mem_info)).1
    = Raise ValueError /\
  (tick (without_file "/proc/stat" board)
        (tick board (fresh_loop board board_mem_info)).2).1
    = Raise IndexError.
Proof. repeat split; vm_compute; reflexivity. Qed.

(** ** RAM usage *)

Lemma get_ram_usage_eq (self : RaspberryMonitor) :
  let total := Py.get (mem_info self) "MemTotal" 1 in
  let available := Py.get (mem_info self) "MemAvailable" 0 in
  total <> 0 ->
  get_ram_usage self =
    (Ret (Py.Float (inject_Z (total - available) / inject_Z total * 100)%Q), self).
Proof.
  intros total available Hne.
  unfold get_ram_usage, bind, gets, lift, ret, Py.truediv. simpl.
  fold total. destruct (decide (total = 0)); [contradiction | reflexivity].
Qed.

(** C3, as the code has it. Let [total] be the MemTotal entry, or 1 when
    the mapping has none, and [available] the MemAvailable entry, or 0 when
    the mapping has none. Whenever [total] is not 0, [get_ram_usage]
    returns [(total - available) / total * 100] and changes nothing. A
    missing MemTotal therefore never divides by zero, and the result is
    then [(1 - available) * 100]. For MemTotal 2000 and MemAvailable 500
    the result is 75. *)
Theorem get_ram_usage_formula :
  (forall (self : RaspberryMonitor) (total available : Z),
     total = default 1 (mem_info self !! "MemTotal"%string) ->
     available = default 0 (mem_info self !! "MemAvailable"%string) ->
     total <> 0 ->
     get_ram_usage self =
       (Ret (Py.Float (inject_Z (total - available) / inject_Z total * 100)%Q), self)) /\
  (forall (self : RaspberryMonitor) (available : Z),
     mem_info self !! "MemTotal"%string = None ->
     available = default 0 (mem_info self !! "MemAvailable"%string) ->
     exists r, get_ram_usage self = (Ret r, self) /\
               (Py.value r == inject_Z (1 - available) * 100)%Q) /\
  (forall (cpu : option (list Z)) (net : gmap string Z) (i : string),
     exists r,
       get_ram_usage (mkRaspberryMonitor cpu net board_mem_info i)
         = (Ret r, mkRaspberryMonitor cpu net board_mem_info i) /\
       (Py.value r == 75)%Q).
Proof.
  split; [| split].
  - intros self total available -> -> Hne. now apply get_ram_usage_eq.
  - intros self available Hnone ->.
    eexists. split.
    + apply get_ram_usage_eq. unfold Py.get. rewrite Hnone. discriminate.
    + unfold Py.get. rewrite Hnone. simpl. field.
  - intros cpu net i. eexists. split; [reflexivity |]. reflexivity.
Qed.

Lemma get_ram_usage_formula_witness :
  get_ram_usage (init board board_mem_info) =
    (Ret (Py.Float (inject_Z (2000 - 500) / inject_Z 2000 * 100)%Q),
     init board board_mem_info) /\
  exists r, get_ram_usage (init board ∅) = (Ret r, init board ∅) /\
            (Py.value r == inject_Z (1 - 0) * 100)%Q.
Proof.
  split.
  - apply (proj1 get_ram_usage_formula (init board board_mem_info) 2000 500);
      [reflexivity | reflexivity | lia].
  - apply (proj1 (proj2 get_ram_usage_formula) (init board ∅) 0);
      reflexivity.
Defined.

(** C3, as stated, fails: with no entries the result is 100 and not 0, and
    with a MemTotal entry of 0 the division raises. *)
Lemma get_ram_usage_zero_or_missing :
  (exists r, get_ram_usage (init board ∅) = (Ret r, init board ∅) /\
             (Py.value r == 100)%Q /\ ~ (Py.value r == 0)%Q) /\
  get_ram_usage (init board {[ "MemTotal"%string := 0 ]})
    = (Raise ZeroDivisionError, init board {[ "MemTotal"%string := 0 ]}).
Proof.
  split.
  - eexists. split; [reflexivity |]. split; [reflexivity | discriminate].
  - reflexivity.
Qed.

(** ** Disk usage *)

(** C9. When the disk query gives a total other than 0, [get_disk_usage]
    returns [used / total * 100]; when it gives a total of 0, it returns 0;
    when the query raises, whatever the exception, it returns [None]. It
    never raises and changes nothing. *)
Theorem get_disk_usage_cases (w : World) (self : RaspberryMonitor) :
  (forall total used free : Z,
     shutil_disk_usage w = Ret (total, used, free) -> total <> 0 ->
     get_disk_usage w self =
       (Ret (Some (Py.Float (inject_Z used / inject_Z total * 100)%Q)), self)) /\
  (forall used free : Z,
     shutil_disk_usage w = Ret (0, used, free) ->
     get_disk_usage w self = (Ret (Some (Py.Int 0)), self)) /\
  (forall e : exn,
     shutil_disk_usage w = Raise e ->
     get_disk_usage w self = (Ret None, self)).
Proof.
  unfold get_disk_usage, lift, try_except, res_bind, Py.truediv.
  split; [| split].
  - intros total used free -> Hne. simpl.
    destruct (decide (total = 0)); [contradiction | reflexivity].
  - intros used free ->. reflexivity.
  - intros e ->. reflexivity.
Qed.

Lemma get_disk_usage_cases_witness :
  get_disk_usage board (init board ∅) =
    (Ret (Some (Py.Float (inject_Z 8000 / inject_Z 32000 * 100)%Q)), init board ∅) /\
  get_disk_usage (with_disk_usage (Ret (0, 0, 0)) board) (init board ∅) =
    (Ret (Some (Py.Int 0)), init board ∅) /\
  get_disk_usage (with_disk_usage (Raise OSError) board) (init board ∅) =
    (Ret None, init board ∅).
Proof.
  split; [| split].
  - apply (proj1 (get_disk_usage_cases board (init board ∅)) 32000 8000 24000);
      [reflexivity | lia].
  - apply (proj1 (proj2 (get_disk_usage_cases _ (init board ∅))) 0 0). reflexivity.
  - apply (proj2 (proj2 (get_disk_usage_cases _ (init board ∅))) OSError). reflexivity.
Defined.

(** ** Network speed *)

Lemma get_network_speed_eq (w : World) (self : RaspberryMonitor)
    (rx tx rx_prev tx_prev : Z) :
  reads_counters w rx tx ->
  prev_net_stats self !! "rx"%string = Some rx_prev ->
  prev_net_stats self !! "tx"%string = Some tx_prev ->
  get_network_speed w self =
    (Ret (Py.Float (inject_Z (rx - rx_prev) / inject_Z 1024)%Q,
          Py.Float (inject_Z (tx - tx_prev) / inject_Z 1024)%Q),
     set_prev_net_stats
       (<["rx"%string := rx]> (<["tx"%string := tx]> (prev_net_stats self)))
       (set_net_interface (ip_route_interface w) self)).
Proof.
  intros [Hrx Htx] Hprx Hptx.
  unfold get_network_speed, get_active_network_interface.
  unfold bind, modify, gets, lift, ret. simpl.
  rewrite Hrx, Htx. unfold Py.getitem. rewrite Hprx, Hptx. reflexivity.
Qed.

(** C7. When the call reads the counters [rx] and [tx] and the stored
    previous counters are [rx_prev] and [tx_prev], [get_network_speed]
    returns [((rx - rx_prev) / 1024, (tx - tx_prev) / 1024)] and the stored
    counters are [rx] and [tx] afterwards, whatever the values are. With
    1024 and 2048 stored and 3072 and 2048 read it returns (2, 0). *)
Theorem get_network_speed_delta :
  (forall (w : World) (self : RaspberryMonitor) (rx tx rx_prev tx_prev : Z),
     reads_counters w rx tx ->
     prev_net_stats self !! "rx"%string = Some rx_prev ->
     prev_net_stats self !! "tx"%string = Some tx_prev ->
     exists self',
       get_network_speed w self =
         (Ret (Py.Float (inject_Z (rx - rx_prev) / inject_Z 1024)%Q,
               Py.Float (inject_Z (tx - tx_prev) / inject_Z 1024)%Q), self') /\
       prev_net_stats self' !! "rx"%string = Some rx /\
       prev_net_stats self' !! "tx"%string = Some tx) /\
  (forall (cpu : option (list Z)) (info : gmap string Z) (i : string),
     exists down up self',
       get_network_speed board
         (mkRaspberryMonitor cpu {[ "rx"%string := 1024; "tx"%string := 2048 ]} info i)
         = (Ret (down, up), self') /\
       (Py.value down == 2)%Q /\ (Py.value up == 0)%Q).
Proof.
  split.
  - intros w self rx tx rx_prev tx_prev Hread Hrx Htx.
    eexists. split; [now apply get_network_speed_eq |].
    simpl. split.
    + apply lookup_insert_eq.
    + rewrite lookup_insert_ne by discriminate. apply lookup_insert_eq.
  - intros cpu info i. do 3 eexists.
    split; [apply (get_network_speed_eq board _ 3072 2048 1024 2048) |].
    + split; reflexivity.
    + reflexivity.
    + reflexivity.
    + split; reflexivity.
Qed.

Lemma get_network_speed_delta_witness :
  exists self',
    get_network_speed board
      (mkRaspberryMonitor None {[ "rx"%string := 1024; "tx"%string := 2048 ]} ∅ "eth0")
      = (Ret (Py.Float (inject_Z (3072 - 1024) / inject_Z 1024)%Q,
              Py.Float (inject_Z (2048 - 2048) / inject_Z 1024)%Q), self') /\
    prev_net_stats self' !! "rx"%string = Some 3072 /\
    prev_net_stats self' !! "tx"%string = Some 2048.
Proof.
  apply (proj1 get_network_speed_delta board
           (mkRaspberryMonitor None {[ "rx"%string := 1024; "tx"%string := 2048 ]} ∅ "eth0")
           3072 2048 1024 2048).
  - split; reflexivity.
  - reflexivity.
  - reflexivity.
Defined.

(** C8. A new [RaspberryMonitor] holds the counters rx 0 and tx 0, so its
    first call to [get_network_speed] that reads the counters [rx] and [tx]
    returns [(rx / 1024, tx / 1024)]: the whole counters, which is not 0
    unless the counter is. *)
Theorem first_network_speed (w : World) (info : gmap string Z) (rx tx : Z) :
  reads_counters w rx tx ->
  prev_net_stats (init w info) = {[ "rx"%string := 0; "tx"%string := 0 ]} /\
  exists down up self',
    get_network_speed w (init w info) = (Ret (down, up), self') /\
    (Py.value down == inject_Z rx / 1024)%Q /\
    (Py.value up == inject_Z tx / 1024)%Q /\
    (rx <> 0 -> ~ (Py.value down == 0)%Q).
Proof.
  intros Hread. split; [reflexivity |].
  do 3 eexists. split.
  - apply (get_network_speed_eq w (init w info) rx tx 0 0 Hread); reflexivity.
  - simpl. rewrite !Z.sub_0_r. split; [reflexivity |]. split; [reflexivity |].
    intros Hrx Hq. apply Hrx.
    unfold Qeq, Qdiv, Qmult, Qinv, inject_Z in Hq. simpl in Hq. lia.
Qed.

Lemma first_network_speed_witness :
  prev_net_stats (init board ∅) = {[ "rx"%string := 0; "tx"%string := 0 ]} /\
  exists down up self',
    get_network_speed board (init board ∅) = (Ret (down, up), self') /\
    (Py.value down == inject_Z 3072 / 1024)%Q /\
    (Py.value up == inject_Z 2048 / 1024)%Q /\
    (3072 <> 0 -> ~ (Py.value down == 0)%Q).
Proof.
  apply (first_network_speed board ∅ 3072 2048). split; reflexivity.
Defined.

(** ** CPU usage *)

Lemma sum_zip_self (l : list Z) : Py.sum (zip_with Z.sub l l) = 0.
Proof.
  unfold Py.sum. induction l as [| x l IH]; simpl; [reflexivity |]. lia.
Qed.

Lemma lookup_zip_self (l : list Z) (i : nat) :
  (i < length l)%nat -> zip_with Z.sub l l !! i = Some 0.
Proof.
  revert i. induction l as [| x l IH]; intros i Hi; simpl in *; [lia |].
  destruct i as [| i]; simpl.
  - f_equal. lia.
  - apply IH. lia.
Qed.

Lemma deltas_nonneg (prev cur : list Z) :
  Forall2 Z.le prev cur -> Forall (Z.le 0) (zip_with Z.sub cur prev).
Proof.
  induction 1 as [| p c prev cur Hle _ IH]; simpl; constructor; [lia | exact IH].
Qed.

Lemma lookup_le_sum (l : list Z) (i : nat) (x : Z) :
  Forall (Z.le 0) l -> l !! i = Some x -> 0 <= x <= Py.sum l.
Proof.
  intros Hl. revert i. induction Hl as [| y l Hy Hl IH]; intros i Hi.
  - discriminate.
  - assert (0 <= Py.sum l) as Hsum.
    { clear -Hl. induction Hl as [| z l Hz _ IH]; simpl; [lia |].
      unfold Py.sum in *. simpl. lia. }
    destruct i as [| i]; simpl in Hi.
    + injection Hi as ->. unfold Py.sum in *. simpl. lia.
    + specialize (IH i Hi). unfold Py.sum in *. simpl. lia.
Qed.

Lemma usage_bounds (idle total : Z) :
  0 <= idle <= total -> total <> 0 ->
  (0 <= (1 - inject_Z idle / inject_Z total) * 100 <= 100)%Q.
Proof.
  intros [Hidle Hle] Hne.
  assert (0 < inject_Z total)%Q as Hpos.
  { change 0%Q with (inject_Z 0). rewrite <- Zlt_Qlt. lia. }
  assert (0 <= inject_Z idle / inject_Z total)%Q as Hlo.
  { apply Qle_shift_div_l; [exact Hpos |]. rewrite Qmult_0_l.
    change 0%Q with (inject_Z 0). rewrite <- Zle_Qle. exact Hidle. }
  assert (inject_Z idle / inject_Z total <= 1)%Q as Hhi.
  { apply Qle_shift_div_r; [exact Hpos |]. rewrite Qmult_1_l.
    rewrite <- Zle_Qle. exact Hle. }
  split; lra.
Qed.

(** A call that finds a non-empty stored sample and a fourth delta. *)
Lemma cpu_usage_from_warm (self : RaspberryMonitor) (cur prev : list Z) (idle : Z) :
  prev_cpu_stats self = Some prev -> prev <> [] ->
  zip_with Z.sub cur prev !! 3%nat = Some idle ->
  cpu_usage_from cur self =
    (Ret (if decide (Py.sum (zip_with Z.sub cur prev) = 0) then Py.Int 0
          else Py.Float ((1 - inject_Z idle / inject_Z (Py.sum (zip_with Z.sub cur prev)))
                         * 100)%Q),
     set_prev_cpu_stats (Some cur) self).
Proof.
  intros Hprev Hne Hidle.
  unfold cpu_usage_from, bind, gets. rewrite Hprev.
  destruct prev as [| p ps]; [congruence |].
  unfold lift, Py.index. rewrite Hidle. unfold modify, ret.
  destruct (decide (Py.sum (zip_with Z.sub cur (p :: ps)) = 0)) as [Hz | Hnz];
    [reflexivity |].
  unfold Py.truediv.
  destruct (decide (Py.sum (zip_with Z.sub cur (p :: ps)) = 0)); [contradiction | reflexivity].
Qed.

(** A call that finds no stored sample, or an empty one. *)
Lemma cpu_usage_from_cold (self : RaspberryMonitor) (cur : list Z) :
  prev_cpu_stats self = None \/ prev_cpu_stats self = Some [] ->
  cpu_usage_from cur self = (Ret (Py.Float 0), set_prev_cpu_stats (Some cur) self).
Proof.
  intros [H | H]; unfold cpu_usage_from, bind, gets; rewrite H; reflexivity.
Qed.

Lemma get_cpu_usage_read (w : World) (self : RaspberryMonitor) (sample : list Z) :
  read_cpu_stats w = Ret sample -> get_cpu_usage w self = cpu_usage_from sample self.
Proof. intros H. unfold get_cpu_usage, bind, lift. rewrite H. reflexivity. Qed.

(** A call that returns has stored the sample it read. *)
Lemma cpu_usage_from_stores (self self' : RaspberryMonitor) (cur : list Z) (r : Py.num) :
  cpu_usage_from cur self = (Ret r, self') -> prev_cpu_stats self' = Some cur.
Proof.
  unfold cpu_usage_from, bind, gets, lift, modify, ret.
  destruct (prev_cpu_stats self) as [[| p ps] |].
  - intros [= _ <-]. reflexivity.
  - destruct (Py.index (zip_with Z.sub cur (p :: ps)) 3) as [idle | e]; [| discriminate].
    destruct (decide (Py.sum (zip_with Z.sub cur (p :: ps)) = 0)).
    + intros [= _ <-]. reflexivity.
    + destruct (Py.truediv idle (Py.sum (zip_with Z.sub cur (p :: ps)))); [| discriminate].
      intros [= _ <-]. reflexivity.
  - intros [= _ <-]. reflexivity.
Qed.

(** C4. On a sampler with no stored sample, the first call returns 0.0
    and stores the sample it read as the baseline, whatever the sample is.
    A second call that reads the same sample of at least four fields
    returns 0 as well. After every call on a sample of at least four
    fields, made with nothing stored or with a stored sample of the same
    length, the stored sample is the sample that call read; and whenever a
    call returns, it has stored the sample it read. *)
Theorem get_cpu_usage_cold_start :
  (forall (w : World) (self : RaspberryMonitor) (sample : list Z),
     read_cpu_stats w = Ret sample -> prev_cpu_stats self = None ->
     get_cpu_usage w self = (Ret (Py.Float 0), set_prev_cpu_stats (Some sample) self)) /\
  (forall (w : World) (self : RaspberryMonitor) (sample : list Z),
     read_cpu_stats w = Ret sample -> prev_cpu_stats self = None ->
     (4 <= length sample)%nat ->
     exists r,
       get_cpu_usage w (get_cpu_usage w self).2
         = (Ret r, set_prev_cpu_stats (Some sample) self) /\
       (Py.value r == 0)%Q) /\
  (forall (w : World) (self : RaspberryMonitor) (sample : list Z),
     read_cpu_stats w = Ret sample -> (4 <= length sample)%nat ->
     prev_cpu_stats self = None \/
       (exists prev, prev_cpu_stats self = Some prev /\ length prev = length sample) ->
     exists r self',
       get_cpu_usage w self = (Ret r, self') /\ prev_cpu_stats self' = Some sample) /\
  (forall (w : World) (self self' : RaspberryMonitor) (r : Py.num),
     get_cpu_usage w self = (Ret r, self') ->
     exists sample, read_cpu_stats w = Ret sample /\ prev_cpu_stats self' = Some sample).
Proof.
  split; [| split; [| split]].
  - intros w self sample Hread Hnone.
    rewrite (get_cpu_usage_read w self sample Hread).
    apply cpu_usage_from_cold. now left.
  - intros w self sample Hread Hnone Hlen.
    rewrite (get_cpu_usage_read w self sample Hread).
    rewrite (cpu_usage_from_cold self sample (or_introl Hnone)). simpl.
    rewrite (get_cpu_usage_read w _ sample Hread).
    exists (Py.Int 0). split; [| reflexivity].
    rewrite (cpu_usage_from_warm (set_prev_cpu_stats (Some sample) self) sample sample 0).
    + rewrite sum_zip_self. reflexivity.
    + reflexivity.
    + intros ->. simpl in Hlen. lia.
    + apply lookup_zip_self. lia.
  - intros w self sample Hread Hlen Hstored.
    rewrite (get_cpu_usage_read w self sample Hread).
    destruct Hstored as [Hnone | (prev & Hprev & Hsame)].
    + rewrite (cpu_usage_from_cold self sample (or_introl Hnone)).
      do 2 eexists. split; reflexivity.
    + assert (exists idle, zip_with Z.sub sample prev !! 3%nat = Some idle) as [idle Hidle].
      { apply lookup_lt_is_Some. rewrite length_zip_with. lia. }
      rewrite (cpu_usage_from_warm self sample prev idle Hprev); [| | exact Hidle].
      * do 2 eexists. split; reflexivity.
      * intros ->. simpl in Hsame. lia.
  - intros w self self' r Hcall. unfold get_cpu_usage, bind, lift in Hcall.
    destruct (read_cpu_stats w) as [sample | e]; [| discriminate].
    exists sample. split; [reflexivity |].
    now apply (cpu_usage_from_stores self self' sample r).
Qed.

Lemma get_cpu_usage_cold_start_witness :
  get_cpu_usage board (init board ∅) =
    (Ret (Py.Float 0),
     set_prev_cpu_stats (Some [4705; 150; 1120; 16250; 520; 0; 30; 0; 0; 0]) (init board ∅)) /\
  (exists r,
     get_cpu_usage board (get_cpu_usage board (init board ∅)).2
       = (Ret r, set_prev_cpu_stats (Some [4705; 150; 1120; 16250; 520; 0; 30; 0; 0; 0])
                   (init board ∅)) /\
     (Py.value r == 0)%Q) /\
  (exists r self',
     get_cpu_usage board
       (set_prev_cpu_stats (Some [4700; 150; 1100; 16000; 500; 0; 30; 0; 0; 0]) (init board ∅))
       = (Ret r, self') /\
     prev_cpu_stats self' = Some [4705; 150; 1120; 16250; 520; 0; 30; 0; 0; 0]) /\
  (exists sample,
     read_cpu_stats board = Ret sample /\
     prev_cpu_stats
       (set_prev_cpu_stats (Some [4705; 150; 1120; 16250; 520; 0; 30; 0; 0; 0]) (init board ∅))
       = Some sample).
Proof.
  split; [| split; [| split]].
  - apply (proj1 get_cpu_usage_cold_start board (init board ∅)); reflexivity.
  - apply (proj1 (proj2 get_cpu_usage_cold_start) board (init board ∅));
      [reflexivity | reflexivity | simpl; lia].
  - apply (proj1 (proj2 (proj2 get_cpu_usage_cold_start)) board).
    + reflexivity.
    + simpl. lia.
    + right. eexists. split; reflexivity.
  - apply (proj2 (proj2 (proj2 get_cpu_usage_cold_start)) board (init board ∅) _
             (Py.Float 0)).
    reflexivity.
Defined.

(** C5. When the stored sample has at least four fields and the sample
    read has the same length and is field by field at least the stored one,
    [get_cpu_usage] returns, stores the sample read, and its result lies
    between 0 and 100; when the deltas add up to 0 the result is the
    integer 0, and no division takes place. *)
Theorem get_cpu_usage_bounded (w : World) (self : RaspberryMonitor)
    (cur prev : list Z) :
  read_cpu_stats w = Ret cur ->
  prev_cpu_stats self = Some prev ->
  length cur = length prev ->
  (4 <= length cur)%nat ->
  Forall2 Z.le prev cur ->
  exists r,
    get_cpu_usage w self = (Ret r, set_prev_cpu_stats (Some cur) self) /\
    (0 <= Py.value r <= 100)%Q /\
    (Py.sum (zip_with Z.sub cur prev) = 0 -> r = Py.Int 0).
Proof.
  intros Hread Hprev Hlen H4 Hmono.
  assert (exists idle, zip_with Z.sub cur prev !! 3%nat = Some idle) as [idle Hidle].
  { apply lookup_lt_is_Some. rewrite length_zip_with. lia. }
  pose proof (lookup_le_sum _ _ _ (deltas_nonneg _ _ Hmono) Hidle) as Hbound.
  rewrite (get_cpu_usage_read w self cur Hread).
  rewrite (cpu_usage_from_warm self cur prev idle Hprev); [| | exact Hidle].
  - eexists. split; [reflexivity |].
    destruct (decide (Py.sum (zip_with Z.sub cur prev) = 0)) as [Hz | Hnz].
    + split; [simpl; split; discriminate | reflexivity].
    + split; [| contradiction].
      simpl. now apply usage_bounds.
  - intros ->. simpl in Hlen. lia.
Qed.

Lemma get_cpu_usage_bounded_witness :
  exists r,
    get_cpu_usage board
      (set_prev_cpu_stats (Some [4700; 150; 1100; 16000; 500; 0; 30; 0; 0; 0]) (init board ∅))
      = (Ret r, set_prev_cpu_stats (Some [4705; 150; 1120; 16250; 520; 0; 30; 0; 0; 0])
                  (set_prev_cpu_stats (Some [4700; 150; 1100; 16000; 500; 0; 30; 0; 0; 0])
                     (init board ∅))) /\
    (0 <= Py.value r <= 100)%Q /\
    (Py.sum (zip_with Z.sub [4705; 150; 1120; 16250; 520; 0; 30; 0; 0; 0]
                            [4700; 150; 1100; 16000; 500; 0; 30; 0; 0; 0]) = 0 ->
     r = Py.Int 0).
Proof.
  apply (get_cpu_usage_bounded board _ [4705; 150; 1120; 16250; 520; 0; 30; 0; 0; 0]
           [4700; 150; 1100; 16000; 500; 0; 30; 0; 0; 0]).
  - reflexivity.
  - reflexivity.
  - reflexivity.
  - simpl. lia.
  - repeat constructor; lia.
Defined.

(** * Further properties of the code *)

(** ** get_power_status in every state *)

(** X1. The outcome of [get_power_status] is decided by what the query
    gives and by whether a value is stored: without a value it returns
    "Unable to determine power status" and changes nothing; with a value
    and nothing stored it returns "Checking status"; with a value and a
    value stored it raises [TypeError]. Whenever the query gives a value,
    that value is the stored one after the call, also when the call
    raises. *)
Theorem get_power_status_outcomes (w : World) (self : PowerMonitor) :
  match vcgencmd_throttled w, last_throttled self with
  | None, _ =>
      get_power_status w self = (Ret "Unable to determine power status"%string, self)
  | Some v, None =>
      get_power_status w self = (Ret "Checking status"%string, mkPowerMonitor (Some v))
  | Some v, Some _ =>
      get_power_status w self = (Raise TypeError, mkPowerMonitor (Some v))
  end.
Proof.
  destruct self as [last].
  unfold get_power_status, get_throttled_status.
  destruct (vcgencmd_throttled w) as [v |]; [| reflexivity].
  destruct last as [l |]; [| reflexivity].
  unfold bind, gets, lift, modify, ret. simpl.
  rewrite !analyze_throttled_int.
  pose proof (first_issue_truthy (Z.shiftr v 16)) as Hpast.
  unfold Py.truthy in Hpast. rewrite Hpast.
  destruct (decide (l <> v)) as [Hne | Heq]; [reflexivity |].
  assert (l = v) as -> by (destruct (decide (l = v)); [assumption | contradiction]).
  reflexivity.
Qed.

(** ** get_network_speed over several calls *)

Lemma int_raises (s : string) (e : exn) : Py.int s = Raise e -> e = ValueError.
Proof.
  unfold Py.int.
  destruct (Py.int_digits 0 false _); [discriminate | intros [= <-]; reflexivity].
Qed.

(** X2. A new [RaspberryMonitor] stores both counters, every call of
    [get_network_speed] keeps both stored, and a call made in such a state
    never raises [KeyError]: the only exception it raises is the
    [ValueError] of a counter file that does not hold an integer, and then
    the stored counters are the ones from before the call. *)
Theorem get_network_speed_invariant :
  (forall (w : World) (info : gmap string Z), has_counters (init w info)) /\
  (forall (w : World) (self : RaspberryMonitor),
     has_counters self ->
     has_counters (get_network_speed w self).2 /\
     (forall e, (get_network_speed w self).1 = Raise e ->
                e = ValueError /\
                prev_net_stats (get_network_speed w self).2 = prev_net_stats self)).
Proof.
  split.
  - intros w info. split; eexists; reflexivity.
  - intros w self [[rx0 Hrx] [tx0 Htx]].
    unfold get_network_speed, get_active_network_interface.
    unfold bind, modify, gets, lift, ret. simpl.
    destruct (Py.int (get_first_line w (statistics_path (ip_route_interface w) "rx_bytes")))
      as [rx | e1] eqn:E1.
    + destruct (Py.int (get_first_line w (statistics_path (ip_route_interface w) "tx_bytes")))
        as [tx | e2] eqn:E2.
      * unfold Py.getitem. rewrite Hrx, Htx. simpl. split.
        -- split; simpl.
           ++ rewrite lookup_insert_eq. eexists; reflexivity.
           ++ rewrite lookup_insert_ne by discriminate. rewrite lookup_insert_eq.
              eexists; reflexivity.
        -- intros e [=].
      * simpl. split.
        -- split; simpl; [rewrite Hrx | rewrite Htx]; eexists; reflexivity.
        -- intros e [= <-]. split; [exact (int_raises _ _ E2) | reflexivity].
    + simpl. split.
      * split; simpl; [rewrite Hrx | rewrite Htx]; eexists; reflexivity.
      * intros e [= <-]. split; [exact (int_raises _ _ E1) | reflexivity].
Qed.

Lemma get_network_speed_invariant_witness :
  has_counters
    (get_network_speed (without_file "/sys/class/net/wlan0/statistics/tx_bytes" board)
       (init board ∅)).2 /\
  (forall e,
     (get_network_speed (without_file "/sys/class/net/wlan0/statistics/tx_bytes" board)
        (init board ∅)).1 = Raise e ->
     e = ValueError /\
     prev_net_stats
       (get_network_speed (without_file "/sys/class/net/wlan0/statistics/tx_bytes" board)
          (init board ∅)).2 = prev_net_stats (init board ∅)).
Proof.
  apply (proj2 get_network_speed_invariant).
  apply (proj1 get_network_speed_invariant).
Defined.

(** X3. The speeds of two calls in a row add up to the speed over both:
    when the first call reads [rx1] and the second [rx2], the two download
    speeds sum to [(rx2 - rx0) / 1024] for the counter [rx0] stored before
    the first call, and likewise for upload. *)
Theorem get_network_speed_adds_up (w1 w2 : World) (self : RaspberryMonitor)
    (rx0 tx0 rx1 tx1 rx2 tx2 : Z) :
  prev_net_stats self !! "rx"%string = Some rx0 ->
  prev_net_stats self !! "tx"%string = Some tx0 ->
  reads_counters w1 rx1 tx1 ->
  reads_counters w2 rx2 tx2 ->
  exists d1 u1 d2 u2 self1 self2,
    get_network_speed w1 self = (Ret (d1, u1), self1) /\
    get_network_speed w2 self1 = (Ret (d2, u2), self2) /\
    (Py.value d1 + Py.value d2 == inject_Z (rx2 - rx0) / 1024)%Q /\
    (Py.value u1 + Py.value u2 == inject_Z (tx2 - tx0) / 1024)%Q.
Proof.
  intros Hrx0 Htx0 Hw1 Hw2.
  do 6 eexists. split; [| split].
  - apply (get_network_speed_eq w1 self rx1 tx1 rx0 tx0 Hw1 Hrx0 Htx0).
  - apply (get_network_speed_eq w2 _ rx2 tx2 rx1 tx1 Hw2); simpl.
    + apply lookup_insert_eq.
    + rewrite lookup_insert_ne by discriminate. apply lookup_insert_eq.
  - simpl. unfold Z.sub. rewrite !inject_Z_plus, !inject_Z_opp. split; field.
Qed.

Lemma get_network_speed_adds_up_witness :
  exists d1 u1 d2 u2 self1 self2,
    get_network_speed board (init board ∅) = (Ret (d1, u1), self1) /\
    get_network_speed board self1 = (Ret (d2, u2), self2) /\
    (Py.value d1 + Py.value d2 == inject_Z (3072 - 0) / 1024)%Q /\
    (Py.value u1 + Py.value u2 == inject_Z (2048 - 0) / 1024)%Q.
Proof.
  apply (get_network_speed_adds_up board board (init board ∅) 0 0 3072 2048 3072 2048);
    try reflexivity; split; reflexivity.
Defined.

(** X4. The speed is not clamped: the download speed returned is negative
    exactly when the counter read is below the stored one (a counter that
    was reset, or that belongs to another interface than the stored one),
    and is 0 exactly when the two are equal. *)
Theorem get_network_speed_sign (w : World) (self : RaspberryMonitor)
    (rx tx rx_prev tx_prev : Z) :
  reads_counters w rx tx ->
  prev_net_stats self !! "rx"%string = Some rx_prev ->
  prev_net_stats self !! "tx"%string = Some tx_prev ->
  exists down up self',
    get_network_speed w self = (Ret (down, up), self') /\
    ((Py.value down < 0)%Q <-> rx < rx_prev) /\
    ((Py.value down == 0)%Q <-> rx = rx_prev).
Proof.
  intros Hw Hrx Htx. do 3 eexists.
  split; [apply (get_network_speed_eq w self rx tx rx_prev tx_prev Hw Hrx Htx) |].
  simpl. unfold Qlt, Qeq, Qdiv, Qmult, Qinv, inject_Z. simpl. split; lia.
Qed.

Lemma get_network_speed_sign_witness :
  exists down up self',
    get_network_speed board
      (mkRaspberryMonitor None {[ "rx"%string := 5000; "tx"%string := 0 ]} ∅ "eth0")
      = (Ret (down, up), self') /\
    ((Py.value down < 0)%Q <-> 3072 < 5000) /\
    ((Py.value down == 0)%Q <-> 3072 = 5000).
Proof.
  apply (get_network_speed_sign board _ 3072 2048 5000 0);
    try reflexivity; split; reflexivity.
Defined.

(** ** get_cpu_usage: the share of busy time, and when it raises *)





Lemma comprehension_int_raises (l : list string) (e : exn) :
  Py.comprehension Py.int l = Raise e -> e = ValueError.
Proof.
  induction l as [| s l IH]; simpl; [discriminate |].
  destruct (Py.int s) as [n | e1] eqn:E.
  - destruct (Py.comprehension Py.int l) as [ns | e2]; [discriminate |].
    intros [= <-]. now apply IH.
  - intros [= <-]. exact (int_raises _ _ E).
Qed.

(** X6. [get_cpu_usage] raises in two cases only, and stores nothing when
    it does: [ValueError], when a field of the line read is not an integer;
    [IndexError], when a non-empty sample is stored and the sample read or
    the stored one has fewer than four fields. It never raises
    [ZeroDivisionError]. *)
Theorem get_cpu_usage_raises (w : World) (self : RaspberryMonitor) (e : exn) :
  (get_cpu_usage w self).1 = Raise e ->
  (get_cpu_usage w self).2 = self /\
  ((e = ValueError /\ read_cpu_stats w = Raise ValueError) \/
   (e = IndexError /\
    exists cur prev,
      read_cpu_stats w = Ret cur /\ prev_cpu_stats self = Some prev /\ prev <> [] /\
      (length cur < 4 \/ length prev < 4)%nat)).
Proof.
  unfold get_cpu_usage, bind, lift.
  destruct (read_cpu_stats w) as [cur | e1] eqn:Hread.
  - unfold cpu_usage_from, bind, gets, lift, modify, ret.
    destruct (prev_cpu_stats self) as [[| p ps] |] eqn:Hprev; simpl; try discriminate.
    unfold Py.index.
    destruct (zip_with Z.sub cur (p :: ps) !! 3%nat) as [idle |] eqn:Hidle.
    + destruct (decide (Py.sum (zip_with Z.sub cur (p :: ps)) = 0)); [discriminate |].
      unfold Py.truediv.
      destruct (decide (Py.sum (zip_with Z.sub cur (p :: ps)) = 0)); [contradiction |].
      discriminate.
    + intros [= <-]. split; [reflexivity |]. right. split; [reflexivity |].
      exists cur, (p :: ps). repeat split; [discriminate |].
      apply lookup_ge_None in Hidle. rewrite length_zip_with in Hidle. lia.
  - intros [= <-]. split; [reflexivity |]. left.
    unfold read_cpu_stats in Hread.
    pose proof (comprehension_int_raises _ _ Hread) as ->.
    split; reflexivity.
Qed.

Lemma get_cpu_usage_raises_witness :
  (get_cpu_usage (without_file "/proc/stat" board)
     (set_prev_cpu_stats (Some [1; 2; 3; 4]) (init board ∅))).2
    = set_prev_cpu_stats (Some [1; 2; 3; 4]) (init board ∅) /\
  ((IndexError = ValueError /\
    read_cpu_stats (without_file "/proc/stat" board) = Raise ValueError) \/
   (IndexError = IndexError /\
    exists cur prev,
      read_cpu_stats (without_file "/proc/stat" board) = Ret cur /\
      prev_cpu_stats (set_prev_cpu_stats (Some [1; 2; 3; 4]) (init board ∅)) = Some prev /\
      prev <> [] /\ (length cur < 4 \/ length prev < 4)%nat)).
Proof.
  apply (get_cpu_usage_raises (without_file "/proc/stat" board)
           (set_prev_cpu_stats (Some [1; 2; 3; 4]) (init board ∅)) IndexError).
  reflexivity.
Defined.

(** ** What an iteration leaves alone *)

Lemma keeps_loop_bind {A B : Type} (m : M Loop A) (k : A -> M Loop B) :
  keeps_loop m -> (forall a, keeps_loop (k a)) -> keeps_loop (bind m k).
Proof.
  intros Hm Hk s. unfold bind. specialize (Hm s).
  destruct (m s) as [[a | e] s1]; simpl in *.
  - destruct (Hk a s1) as [H1 H2]. destruct Hm as [H3 H4].
    split; congruence.
  - exact Hm.
Qed.

Lemma keeps_loop_on_monitor {A : Type} (m : M RaspberryMonitor A) :
  keeps_snapshot m -> keeps_loop (on_monitor m).
Proof. intros Hm s. unfold on_monitor. simpl. split; [apply Hm | reflexivity]. Qed.

Lemma keeps_loop_lift {A : Type} (r : res A) : keeps_loop (lift r).
Proof. intros s. split; reflexivity. Qed.

Lemma keeps_loop_ret {A : Type} (a : A) : keeps_loop (ret a).
Proof. intros s. split; reflexivity. Qed.

Lemma keeps_snapshot_lift {A : Type} (r : res A) :
  keeps_snapshot (lift (S := RaspberryMonitor) r).
Proof. intros self. reflexivity. Qed.

Lemma get_cpu_usage_keeps (w : World) : keeps_snapshot (get_cpu_usage w).
Proof.
  intros self. unfold get_cpu_usage, bind, lift.
  destruct (read_cpu_stats w) as [cur | e]; [| reflexivity].
  unfold cpu_usage_from, bind, gets, lift, modify, ret.
  destruct (prev_cpu_stats self) as [[| p ps] |]; try reflexivity.
  destruct (Py.index (zip_with Z.sub cur (p :: ps)) 3) as [idle | e]; [| reflexivity].
  destruct (decide (Py.sum (zip_with Z.sub cur (p :: ps)) = 0)); [reflexivity |].
  destruct (Py.truediv idle (Py.sum (zip_with Z.sub cur (p :: ps)))); reflexivity.
Qed.

Lemma get_network_speed_keeps (w : World) : keeps_snapshot (get_network_speed w).
Proof.
  intros self. unfold get_network_speed, bind, modify, gets, lift, ret. simpl.
  destruct (Py.int _); [| reflexivity].
  destruct (Py.int _); [| reflexivity].
  destruct (Py.getitem _ "rx"); [| reflexivity]. simpl.
  destruct (Py.getitem _ "tx"); reflexivity.
Qed.

Lemma get_ram_usage_keeps : keeps_snapshot get_ram_usage.
Proof.
  intros self. unfold get_ram_usage, bind, gets, lift, ret.
  destruct (Py.truediv _ _); reflexivity.
Qed.

Lemma get_ram_usage_snapshot (self self' : RaspberryMonitor) :
  mem_info self' = mem_info self ->
  (get_ram_usage self').1 = (get_ram_usage self).1.
Proof.
  intros H. unfold get_ram_usage, bind, gets, lift, ret. rewrite H.
  destruct (Py.truediv _ _); reflexivity.
Qed.

Lemma tick_keeps_loop (w : World) : keeps_loop (tick w).
Proof.
  unfold tick.
  apply keeps_loop_bind; [apply keeps_loop_on_monitor, keeps_snapshot_lift |]. intros t.
  apply keeps_loop_bind; [apply keeps_loop_on_monitor, get_cpu_usage_keeps |]. intros c.
  apply keeps_loop_bind; [apply keeps_loop_on_monitor, get_ram_usage_keeps |]. intros r.
  apply keeps_loop_bind; [apply keeps_loop_on_monitor, keeps_snapshot_lift |]. intros d.
  apply keeps_loop_bind; [apply keeps_loop_on_monitor, get_network_speed_keeps |]. intros n.
  apply keeps_loop_bind; [apply keeps_loop_lift |]. intros ps.
  apply keeps_loop_ret.
Qed.

(** X7. The memory figures are a snapshot of the construction: no
    iteration of the loop, whether it returns or raises, changes
    [mem_info], so [get_ram_usage] gives after the iteration the outcome it
    gave before, whatever the system reads in between. The iteration also
    never touches the [PowerMonitor]: its stored value stays what it was. *)
Theorem tick_keeps_snapshot (w : World) (s : Loop) :
  mem_info (monitor (tick w s).2) = mem_info (monitor s) /\
  (get_ram_usage (monitor (tick w s).2)).1 = (get_ram_usage (monitor s)).1 /\
  power_monitor (tick w s).2 = power_monitor s.
Proof.
  destruct (tick_keeps_loop w s) as [Hmem Hpower].
  split; [exact Hmem |]. split; [| exact Hpower].
  now apply get_ram_usage_snapshot.
Qed.

(** ** What an iteration that returns hands to the display *)

Lemma bind_ret_inv {S A B : Type} (m : M S A) (k : A -> M S B) (s s' : S) (b : B) :
  bind m k s = (Ret b, s') ->
  exists a s1, m s = (Ret a, s1) /\ k a s1 = (Ret b, s').
Proof.
  unfold bind. destruct (m s) as [[a | e] s1]; [| discriminate].
  intros H. exists a, s1. split; [reflexivity | exact H].
Qed.

Lemma on_monitor_ret_inv {A : Type} (m : M RaspberryMonitor A) (s s' : Loop) (a : A) :
  on_monitor m s = (Ret a, s') ->
  m (monitor s) = (Ret a, monitor s').
Proof.
  unfold on_monitor. destruct (m (monitor s)) as [r self']. simpl.
  intros [= -> <-]. reflexivity.
Qed.

(** X8. When an iteration returns, the throttled query gave a value [v],
    and the power status handed to the display is the label of the first
    set bit among bits 0 to 3 of [v]: one of the five labels, never
    "Checking status", and independent of the bits 16 and up that record
    past issues. The disk figure handed over is [None] exactly when the
    disk query raised. *)
Theorem tick_returns (w : World) (s s' : Loop) (m : Metrics) :
  tick w s = (Ret m, s') ->
  (exists v, vcgencmd_throttled w = Some v /\
             power_status m = first_issue v /\
             power_status m = first_issue (Z.land v 0xffff)) /\
  power_status m ∈ labels /\
  (disk_usage m = None <-> exists e, shutil_disk_usage w = Raise e).
Proof.
  unfold tick. intros H.
  apply bind_ret_inv in H as (t & s1 & _ & H).
  apply bind_ret_inv in H as (c & s2 & _ & H).
  apply bind_ret_inv in H as (r & s3 & _ & H).
  apply bind_ret_inv in H as (d & s4 & Hd & H).
  apply bind_ret_inv in H as (n & s5 & _ & H).
  apply bind_ret_inv in H as (ps & s6 & Hps & H).
  unfold ret in H. injection H as <- _. simpl.
  unfold lift, get_throttled_status in Hps. injection Hps as Hps _.
  apply on_monitor_ret_inv in Hd.
  assert (exists v, vcgencmd_throttled w = Some v /\ ps = first_issue v) as (v & Hv & ->).
  { destruct (vcgencmd_throttled w) as [v |]; [| discriminate].
    exists v. split; [reflexivity |].
    rewrite analyze_throttled_int in Hps. now injection Hps as <-. }
  split; [| split].
  - exists v. split; [exact Hv |]. split; [reflexivity |].
    unfold first_issue.
    rewrite !Z.land_spec. change 0xffff with (Z.ones 16).
    rewrite !Z.ones_spec_low by lia. now rewrite !andb_true_r.
  - apply first_issue_label.
  - revert Hd. unfold get_disk_usage, lift, try_except, res_bind.
    destruct (shutil_disk_usage w) as [[[total used] free] | e]; simpl.
    + destruct (decide (total = 0)); simpl.
      * intros [= <- _]. split; [discriminate | intros [e' [=]]].
      * unfold Py.truediv. destruct (decide (total = 0)); [contradiction |]. simpl.
        intros [= <- _]. split; [discriminate | intros [e' [=]]].
    + intros [= <- _]. split; [intros _; eexists; reflexivity | reflexivity].
Qed.

Lemma tick_returns_witness :
  (exists v, vcgencmd_throttled (with_throttled (Some 0x50005) board) = Some v /\
             power_status
               (mkMetrics (48 # 1) (Py.Float 0) (Py.Float (inject_Z 1 / inject_Z 1 * 100))
                  (Some (Py.Float (inject_Z 8000 / inject_Z 32000 * 100)))
                  (Py.Float (inject_Z 3072 / inject_Z 1024)) "Undervolt")
               = first_issue v /\
             power_status
               (mkMetrics (48 # 1) (Py.Float 0) (Py.Float (inject_Z 1 / inject_Z 1 * 100))
                  (Some (Py.Float (inject_Z 8000 / inject_Z 32000 * 100)))
                  (Py.Float (inject_Z 3072 / inject_Z 1024)) "Undervolt")
               = first_issue (Z.land v 0xffff)) /\
  "Undervolt"%string ∈ labels.
Proof.
  pose proof (tick_returns (with_throttled (Some 0x50005) board) (fresh_loop board ∅)
                (tick (with_throttled (Some 0x50005) board) (fresh_loop board ∅)).2
                (mkMetrics (48 # 1) (Py.Float 0) (Py.Float (inject_Z 1 / inject_Z 1 * 100))
                   (Some (Py.Float (inject_Z 8000 / inject_Z 32000 * 100)))
                   (Py.Float (inject_Z 3072 / inject_Z 1024)) "Undervolt")
                eq_refl) as (H1 & H2 & _).
  exact (conj H1 H2).
Defined.

(** ** get_memory_info *)

Example meminfo_entry_line :
  meminfo_entry "MemTotal:        3884328 kB" = Ret ("MemTotal"%string, 3884328).
Proof. reflexivity. Qed.


Lemma meminfo_lines_app (l1 l2 : list string) (acc : gmap string Z) :
  meminfo_lines (l1 ++ l2) acc =
    match meminfo_lines l1 acc with
    | Ret m => meminfo_lines l2 m
    | Raise e => Raise e
    end.
Proof.
  revert acc. induction l1 as [| line l1 IH]; intros acc; simpl; [reflexivity |].
  unfold res_bind. destruct (meminfo_entry line) as [entry | e]; [apply IH | reflexivity].
Qed.

(** Lines whose key is not [k] leave the entry of [k] as it is. *)
Lemma meminfo_lines_other (lines : list string) (acc m : gmap string Z) (k : string) :
  (forall line k' n', line ∈ lines -> meminfo_entry line = Ret (k', n') -> k' <> k) ->
  meminfo_lines lines acc = Ret m ->
  m !! k = acc !! k.
Proof.
  revert acc. induction lines as [| line lines IH]; intros acc Hother; simpl.
  - intros [= <-]. reflexivity.
  - unfold res_bind. destruct (meminfo_entry line) as [[k' n'] |] eqn:E; [| discriminate].
    simpl. intros Hrun.
    rewrite (IH _ (fun l a b Hl => Hother l a b (list_elem_of_further _ _ _ Hl)) Hrun).
    apply lookup_insert_ne. apply (Hother line k' n'); [left | exact E].
Qed.


(** X10. In the mapping that [get_memory_info] returns, a key holds the
    value of the last line that carries it: when the line [line] gives the
    entry [(k, n)] and no later line gives an entry for [k], the mapping
    has [n] at [k], whatever earlier lines said. The key is the first field
    without its trailing colons. *)
Theorem get_memory_info_last_line (before after : list string) (line : string)
    (k : string) (n : Z) (m : gmap string Z) :
  get_memory_info (Some (before ++ line :: after)) = Ret m ->
  meminfo_entry line = Ret (k, n) ->
  (forall line' k' n', line' ∈ after -> meminfo_entry line' = Ret (k', n') -> k' <> k) ->
  m !! k = Some n.
Proof.
  unfold get_memory_info. intros Hrun Hentry Hafter.
  rewrite meminfo_lines_app in Hrun.
  destruct (meminfo_lines before ∅) as [acc | e]; [| discriminate].
  simpl in Hrun. rewrite Hentry in Hrun. simpl in Hrun.
  rewrite (meminfo_lines_other after _ m k Hafter Hrun).
  apply lookup_insert_eq.
Qed.

Lemma get_memory_info_last_line_witness :
  ({[ "MemTotal"%string := 2000; "MemFree"%string := 100;
      "MemAvailable"%string := 500 ]} : gmap string Z)
    !! "MemTotal"%string = Some 2000.
Proof.
  apply (get_memory_info_last_line
           ["MemTotal:  1 kB"%string]
           ["MemFree: 100 kB"%string; "MemAvailable: 500 kB"%string]
           "MemTotal:::  2000 kB" "MemTotal" 2000).
  - vm_compute. reflexivity.
  - reflexivity.
  - intros line' k' n' Hin Hentry.
    apply elem_of_cons in Hin as [-> | Hin].
    + vm_compute in Hentry. injection Hentry as <- _. discriminate.
    + apply elem_of_cons in Hin as [-> | Hin]; [| inversion Hin].
      vm_compute in Hentry. injection Hentry as <- _. discriminate.
Defined.

(** ** The progress bars *)

Lemma trunc_nonneg_bounds (q : Q) :
  (0 <= q)%Q -> (inject_Z (Py.trunc q) <= q < inject_Z (Py.trunc q) + 1)%Q.
Proof.
  destruct q as [n d]. unfold Py.trunc, Qle, Qlt, Qplus, inject_Z. simpl.
  intros Hn. rewrite Z.mul_1_r in Hn.
  rewrite Z.quot_div_nonneg by lia.
  pose proof (Z.mul_div_le n (Z.pos d) ltac:(lia)).
  pose proof (Z.mul_succ_div_gt n (Z.pos d) ltac:(lia)).
  split; nia.
Qed.

Lemma fill_width_bounds (p : Py.num) (width : Z) :
  (0 <= Py.value p <= 100)%Q ->
  fill_width (Some p) = Ret width -> 0 <= width <= BAR_WIDTH.
Proof.
  intros [Hlo Hhi] [= <-]. unfold BAR_WIDTH.
  set (q := (inject_Z 62 * Py.value p / 100)%Q).
  assert (0 <= q <= inject_Z 62)%Q as [Hq0 Hq62].
  { unfold q. change (inject_Z 62) with 62%Q. split.
    - apply Qle_shift_div_l; [reflexivity | lra].
    - apply Qle_shift_div_r; [reflexivity | lra]. }
  destruct (trunc_nonneg_bounds q Hq0) as [H1 H2].
  split.
  - assert (inject_Z (-1) < inject_Z (Py.trunc q))%Q as H.
    { change (inject_Z (-1)) with (-1)%Q. lra. }
    rewrite <- Zlt_Qlt in H. lia.
  - rewrite Zle_Qle. lra.
Qed.

(** X11. For a percentage between 0 and 100, [draw_progress_bar] draws the
    outline from [x] to [x + 62] and then the filled bar from [x] to [x +
    width] with [0 <= width <= 62]: the filling never leaves the outline.
    Between two such percentages, the larger one never gets the shorter
    filling. *)
Theorem draw_progress_bar_within (x y : Z) (p p' : Py.num) :
  (0 <= Py.value p)%Q -> (Py.value p <= Py.value p')%Q -> (Py.value p' <= 100)%Q ->
  exists width width',
    draw_progress_bar x y (Some p) =
      Ret [ mkRectangle x y (x + 62) (y + 7) (Some "white"%string) None;
            mkRectangle x y (x + width) (y + 7) (Some "white"%string)
                        (Some "white"%string) ] /\
    fill_width (Some p') = Ret width' /\
    0 <= width <= width' /\ width' <= 62.
Proof.
  intros H0 Hle H100.
  exists (Py.trunc (inject_Z BAR_WIDTH * Py.value p / 100)%Q),
         (Py.trunc (inject_Z BAR_WIDTH * Py.value p' / 100)%Q).
  split; [reflexivity |]. split; [reflexivity |].
  pose proof (fill_width_bounds p _ ltac:(split; lra) eq_refl) as [Hw0 _].
  pose proof (fill_width_bounds p' _ ltac:(split; lra) eq_refl) as [_ Hw62].
  split; [split; [exact Hw0 |] | exact Hw62].
  set (q := (inject_Z BAR_WIDTH * Py.value p / 100)%Q).
  set (q' := (inject_Z BAR_WIDTH * Py.value p' / 100)%Q).
  assert (0 <= q)%Q as Hq.
  { unfold q, BAR_WIDTH. change (inject_Z 62) with 62%Q.
    apply Qle_shift_div_l; [reflexivity | lra]. }
  assert (q <= q')%Q as Hqq.
  { unfold q, q', BAR_WIDTH. change (inject_Z 62) with 62%Q.
    apply Qle_shift_div_r; [reflexivity |].
    assert (62 * Py.value p' / 100 * 100 == 62 * Py.value p')%Q as Heq by field.
    rewrite Heq. lra. }
  destruct (trunc_nonneg_bounds q Hq) as [H1 _].
  destruct (trunc_nonneg_bounds q' ltac:(lra)) as [_ H2].
  assert (inject_Z (Py.trunc q) < inject_Z (Py.trunc q' + 1))%Q as H.
  { rewrite inject_Z_plus. change (inject_Z 1) with 1%Q. lra. }
  rewrite <- Zlt_Qlt in H. lia.
Qed.

Lemma draw_progress_bar_within_witness :
  exists width width',
    draw_progress_bar 30 2 (Some (Py.Float (1 # 3))) =
      Ret [ mkRectangle 30 2 (30 + 62) (2 + 7) (Some "white"%string) None;
            mkRectangle 30 2 (30 + width) (2 + 7) (Some "white"%string)
                        (Some "white"%string) ] /\
    fill_width (Some (Py.Int 100)) = Ret width' /\
    0 <= width <= width' /\ width' <= 62.
Proof.
  apply (draw_progress_bar_within 30 2 (Py.Float (1 # 3)) (Py.Int 100));
    simpl; unfold Qle; simpl; lia.
Defined.

Lemma tick_disk_usage_none (w : World) (s s' : Loop) (m : Metrics) :
  tick w s = (Ret m, s') ->
  (disk_usage m = None <-> exists e, shutil_disk_usage w = Raise e).
Proof.
  unfold tick. intros H.
  apply bind_ret_inv in H as (t & s1 & _ & H).
  apply bind_ret_inv in H as (c & s2 & _ & H).
  apply bind_ret_inv in H as (r & s3 & _ & H).
  apply bind_ret_inv in H as (d & s4 & Hd & H).
  apply bind_ret_inv in H as (n & s5 & _ & H).
  apply bind_ret_inv in H as (ps & s6 & _ & H).
  unfold ret in H. injection H as <- _. simpl.
  apply on_monitor_ret_inv in Hd.
  revert Hd. unfold get_disk_usage, lift, try_except, res_bind.
  destruct (shutil_disk_usage w) as [[[total used] free] | e]; simpl.
  - destruct (decide (total = 0)); simpl.
    + intros [= <- _]. split; [discriminate | intros [e' [=]]].
    + unfold Py.truediv. destruct (decide (total = 0)); [contradiction |]. simpl.
      intros [= <- _]. split; [discriminate | intros [e' [=]]].
  - intros [= <- _]. split; [intros _; eexists; reflexivity | reflexivity].
Qed.

(** X12. The bars of [update_display] on the figures of an iteration that
    returned: they raise [TypeError] exactly when the disk query of that
    iteration raised, because [get_disk_usage] then hands over [None] and
    the width of the third bar multiplies it; otherwise six rectangles are
    drawn. *)
Theorem update_display_bars_disk (w : World) (s s' : Loop) (m : Metrics) :
  tick w s = (Ret m, s') ->
  (update_display_bars (Some (cpu_usage m)) (Some (ram_usage m)) (disk_usage m)
     = Raise TypeError <-> exists e, shutil_disk_usage w = Raise e) /\
  ((forall e, shutil_disk_usage w <> Raise e) ->
   exists bars,
     update_display_bars (Some (cpu_usage m)) (Some (ram_usage m)) (disk_usage m)
       = Ret bars /\ length bars = 6%nat).
Proof.
  intros Htick. pose proof (tick_disk_usage_none w s s' m Htick) as Hnone.
  unfold update_display_bars, draw_progress_bar, fill_width, res_bind.
  destruct (disk_usage m) as [d |].
  - split.
    + split; [discriminate |]. intros He. apply Hnone in He. discriminate.
    + intros _. eexists. split; reflexivity.
  - split.
    + split; [intros _; now apply Hnone | reflexivity].
    + intros Hno. destruct (proj1 Hnone eq_refl) as [e He]. now destruct (Hno e).
Qed.

Lemma update_display_bars_disk_witness :
  update_display_bars (Some (Py.Float 0)) (Some (Py.Float (inject_Z 1 / inject_Z 1 * 100)))
    None = Raise TypeError <->
  exists e, shutil_disk_usage (with_disk_usage (Raise OSError) board) = Raise e.
Proof.
  exact (proj1 (update_display_bars_disk (with_disk_usage (Raise OSError) board)
                  (fresh_loop board ∅)
                  (tick (with_disk_usage (Raise OSError) board) (fresh_loop board ∅)).2
                  (mkMetrics (48 # 1) (Py.Float 0) (Py.Float (inject_Z 1 / inject_Z 1 * 100))
                     None (Py.Float (inject_Z 3072 / inject_Z 1024)) "OK")
                  eq_refl)).
Defined.

(** ** get_throttled_status on the output of vcgencmd *)

Example get_throttled_status_from_board :
  get_throttled_status_from (Ret (0, throttled_output [5; 0; 0; 0; 5])) = Ret (Some 0x50005).
Proof. reflexivity. Qed.

Lemma hex_char_facts (d : Z) :
  0 <= d < 16 ->
  Py.digit_value (hex_char d) = Some d /\
  Py.isspace (hex_char d) = false /\
  hex_char d <> "="%char /\
  hex_char d <> "_"%char.
Proof.
  intros Hd.
  assert (d = 0 \/ d = 1 \/ d = 2 \/ d = 3 \/ d = 4 \/ d = 5 \/ d = 6 \/ d = 7 \/
          d = 8 \/ d = 9 \/ d = 10 \/ d = 11 \/ d = 12 \/ d = 13 \/ d = 14 \/ d = 15)
    as Hcases by lia.
  repeat (destruct Hcases as [-> | Hcases]); try subst d;
    (split; [reflexivity | split; [reflexivity | split; discriminate]]).
Qed.

Lemma base_digits_hex (ds : list Z) (acc : Z) (after_digit : bool) :
  Forall (fun d => 0 <= d < 16) ds ->
  ds <> [] \/ after_digit = true ->
  Py.base_digits 16 acc after_digit (hex_char <$> ds)
    = Some (foldl (fun a d => 16 * a + d) acc ds).
Proof.
  intros Hds. revert acc after_digit.
  induction Hds as [| d ds Hd _ IH]; intros acc after_digit Hne; simpl.
  - destruct Hne as [Hne | ->]; [congruence | reflexivity].
  - destruct (hex_char_facts d Hd) as (-> & _).
    destruct (Z.ltb_spec d 16); [| lia].
    apply IH. now right.
Qed.

Lemma split_sep_chars_none (sep : ascii) (piece l : list ascii) :
  sep ∉ l -> Py.split_sep_chars sep piece l = [rev piece ++ l].
Proof.
  revert piece. induction l as [| c l IH]; intros piece Hnot; simpl.
  - now rewrite app_nil_r.
  - destruct (decide (c = sep)) as [-> | Hne].
    + exfalso. apply Hnot. left.
    + rewrite IH.
      * simpl. now rewrite <- app_assoc.
      * intros Hin. apply Hnot. now right.
Qed.

Lemma lstrip_head (c : ascii) (l : list ascii) :
  Py.isspace c = false -> Py.lstrip (c :: l) = c :: l.
Proof. intros H. simpl. now rewrite H. Qed.

Lemma hex_chars_no_sep (ds : list Z) :
  Forall (fun d => 0 <= d < 16) ds -> "="%char ∉ (hex_char <$> ds).
Proof.
  induction 1 as [| d ds Hd _ IH]; simpl.
  - apply not_elem_of_nil.
  - intros Hin. apply elem_of_cons in Hin as [Heq | Hin]; [| contradiction].
    destruct (hex_char_facts d Hd) as (_ & _ & Hne & _). congruence.
Qed.

Lemma split_throttled_output (ds : list Z) :
  Forall (fun d => 0 <= d < 16) ds ->
  Py.split_sep "=" (throttled_output ds) =
    [ "throttled"%string;
      string_of_list_ascii ("0"%char :: "x"%char :: (hex_char <$> ds) ++ ["010"%char]) ].
Proof.
  intros Hds. unfold Py.split_sep, throttled_output.
  rewrite list_ascii_of_string_of_list_ascii. simpl.
  rewrite split_sep_chars_none; [reflexivity |].
  intros Hin. apply elem_of_app in Hin as [Hin | Hin].
  - exact (hex_chars_no_sep ds Hds Hin).
  - apply list_elem_of_singleton in Hin. discriminate.
Qed.

Lemma strip_hex_line (ds : list Z) :
  ds <> [] -> Forall (fun d => 0 <= d < 16) ds ->
  Py.strip_chars ("0"%char :: "x"%char :: (hex_char <$> ds) ++ ["010"%char])
    = "0"%char :: "x"%char :: (hex_char <$> ds).
Proof.
  intros Hne Hds. unfold Py.strip_chars. rewrite lstrip_head by reflexivity.
  change ("0"%char :: "x"%char :: (hex_char <$> ds) ++ ["010"%char])
    with (("0"%char :: "x"%char :: (hex_char <$> ds)) ++ ["010"%char]).
  rewrite rev_app_distr.
  change (rev ["010"%char] ++ ?l) with ("010"%char :: l).
  change (Py.lstrip ("010"%char :: ?l)) with (Py.lstrip l).
  set (body := "0"%char :: "x"%char :: (hex_char <$> ds)).
  assert (exists d l, 0 <= d < 16 /\ rev body = hex_char d :: l) as (d & l & Hd & Hrev).
  { destruct (rev ds) as [| d ds'] eqn:Hr.
    - apply (f_equal (@rev Z)) in Hr. rewrite rev_involutive in Hr. simpl in Hr. congruence.
    - exists d. eexists. split.
      + rewrite Forall_forall in Hds. apply Hds. apply list_elem_of_In, in_rev.
        rewrite Hr. now left.
      + unfold body. simpl.
        change (list_fmap Z ascii hex_char ds) with (map hex_char ds).
        rewrite <- map_rev, Hr. simpl. rewrite <- !app_assoc. reflexivity. }
  rewrite Hrev. rewrite lstrip_head by apply (hex_char_facts d Hd).
  rewrite <- Hrev. apply rev_involutive.
Qed.

Lemma int0_hex_line (ds : list Z) :
  ds <> [] -> Forall (fun d => 0 <= d < 16) ds ->
  Py.int0 (string_of_list_ascii ("0"%char :: "x"%char :: (hex_char <$> ds) ++ ["010"%char]))
    = Ret (hex_number ds).
Proof.
  intros Hne Hds. unfold Py.int0.
  rewrite list_ascii_of_string_of_list_ascii, (strip_hex_line ds Hne Hds).
  cbn [fst snd Py.literal0].
  assert (Py.after_prefix (hex_char <$> ds) = hex_char <$> ds) as ->.
  { destruct ds as [| d ds']; [congruence |]. simpl.
    inversion Hds as [| ? ? Hd _]; subst.
    destruct (hex_char_facts d Hd) as (_ & _ & _ & Hus).
    unfold Py.after_prefix.
    destruct (hex_char d) as [b0 b1 b2 b3 b4 b5 b6 b7] eqn:E.
    destruct b0, b1, b2, b3, b4, b5, b6, b7; try reflexivity. congruence. }
  rewrite (base_digits_hex ds 0 false Hds (or_introl Hne)).
  unfold hex_number. f_equal. lia.
Qed.

(** X13. When [vcgencmd] exits with code 0 and prints "throttled=0x"
    followed by hexadecimal digits and a line feed, [get_throttled_status]
    returns the number that the digits denote in base 16. *)
Theorem get_throttled_status_hex (ds : list Z) :
  ds <> [] ->
  Forall (fun d => 0 <= d < 16) ds ->
  get_throttled_status_from (Ret (0, throttled_output ds)) = Ret (Some (hex_number ds)).
Proof.
  intros Hne Hds.
  unfold get_throttled_status_from, try_except, res_bind. cbn [fst snd].
  destruct (decide (0 = 0)) as [_ | H]; [| congruence].
  rewrite (split_throttled_output ds Hds).
  change (Py.index [?a; ?b] 1) with (Ret b).
  cbv beta iota. rewrite (int0_hex_line ds Hne Hds). reflexivity.
Qed.

Lemma get_throttled_status_hex_witness :
  get_throttled_status_from (Ret (0, throttled_output [5; 0; 0; 0; 5]))
    = Ret (Some (hex_number [5; 0; 0; 0; 5])).
Proof.
  apply (get_throttled_status_hex [5; 0; 0; 0; 5]); [discriminate |].
  repeat constructor; lia.
Defined.

Lemma split_sep_no_sep (stdout : string) :
  "="%char ∉ list_ascii_of_string stdout ->
  Py.index (Py.split_sep "=" stdout) 1 = Raise IndexError.
Proof.
  intros Hnot. unfold Py.split_sep.
  rewrite (split_sep_chars_none "=" [] _ Hnot). reflexivity.
Qed.

(** X14. [get_throttled_status] never raises: whatever [subprocess.run]
    gives, it returns a number or [None]. It returns [None] when [run]
    raises, when the return code is not 0, and when the output holds no
    "="; when it returns a number, the return code was 0 and the number is
    what [int(..., 0)] makes of the text between the first "=" and the
    next. *)
Theorem get_throttled_status_from_total (proc : res (Z * string)) :
  (exists o, get_throttled_status_from proc = Ret o) /\
  (forall e, proc = Raise e -> get_throttled_status_from proc = Ret None) /\
  (forall code stdout, proc = Ret (code, stdout) -> code <> 0 ->
     get_throttled_status_from proc = Ret None) /\
  (forall code stdout, proc = Ret (code, stdout) ->
     "="%char ∉ list_ascii_of_string stdout ->
     get_throttled_status_from proc = Ret None) /\
  (forall v, get_throttled_status_from proc = Ret (Some v) ->
     exists stdout field,
       proc = Ret (0, stdout) /\
       Py.split_sep "=" stdout !! 1%nat = Some field /\
       Py.int0 field = Ret v).
Proof.
  unfold get_throttled_status_from, try_except, res_bind.
  destruct proc as [[code stdout] | e]; cbn [fst snd].
  - destruct (decide (code = 0)) as [-> | Hcode].
    + unfold Py.index.
      destruct (Py.split_sep "=" stdout !! 1%nat) as [field |] eqn:Hfield.
      * destruct (Py.int0 field) as [v |] eqn:Hint.
        -- split; [eexists; reflexivity |]. split; [discriminate |].
           split; [intros ? ? [= <- <-] Hne; congruence |].
           split.
           ++ intros ? ? [= <- <-] Hnot.
              pose proof (split_sep_no_sep stdout Hnot) as Hidx.
              unfold Py.index in Hidx. rewrite Hfield in Hidx. discriminate.
           ++ intros v' [= <-]. exists stdout, field. repeat split; assumption.
        -- split; [eexists; reflexivity |]. split; [discriminate |].
           split; [reflexivity |]. split; [reflexivity | discriminate].
      * split; [eexists; reflexivity |]. split; [discriminate |].
        split; [reflexivity |]. split; [reflexivity | discriminate].
    + split; [eexists; reflexivity |]. split; [discriminate |].
      split; [reflexivity |]. split; [reflexivity | discriminate].
  - split; [eexists; reflexivity |]. split; [reflexivity |].
    split; [discriminate |]. split; [discriminate | discriminate].
Qed.

Lemma get_throttled_status_from_total_witness :
  get_throttled_status_from (Raise OSError) = Ret None /\
  get_throttled_status_from (Ret (1, "VCHI initialization failed"%string)) = Ret None /\
  get_throttled_status_from (Ret (0, "throttled"%string)) = Ret None.
Proof.
  split; [| split].
  - apply (proj1 (proj2 (get_throttled_status_from_total (Raise OSError))) OSError).
    reflexivity.
  - apply (proj1 (proj2 (proj2 (get_throttled_status_from_total
                                   (Ret (1, "VCHI initialization failed"%string)))))
             1 "VCHI initialization failed"%string); [reflexivity | lia].
  - apply (proj1 (proj2 (proj2 (proj2 (get_throttled_status_from_total
                                          (Ret (0, "throttled"%string))))))
             0 "throttled"%string); [reflexivity |].
    vm_compute. intros H.
    repeat (apply elem_of_cons in H as [H | H]; [discriminate |]).
    inversion H.
Defined.

(** ** get_active_network_interface on the output of ip *)

Example get_active_network_interface_from_route :
  get_active_network_interface_from
    (Ret (0, ("1.0.0.0 via 192.168.1.1 dev eth0 src 192.168.1.23 uid 1000 " +:+ nl
              +:+ "    cache " +:+ nl)%string))
    = "eth0"%string.
Proof. reflexivity. Qed.

Lemma list_index_first (x : string) (before rest : list string) :
  x ∉ before -> Py.list_index x (before ++ x :: rest) = Ret (length before).
Proof.
  induction before as [| y before IH]; intros Hnot; simpl.
  - destruct (decide (x = x)); [reflexivity | congruence].
  - destruct (decide (y = x)) as [-> | Hne].
    + exfalso. apply Hnot. left.
    + rewrite IH; [reflexivity |]. intros Hin. apply Hnot. now right.
Qed.

Lemma list_index_absent (x : string) (l : list string) :
  x ∉ l -> Py.list_index x l = Raise ValueError.
Proof.
  induction l as [| y l IH]; intros Hnot; simpl; [reflexivity |].
  destruct (decide (y = x)) as [-> | Hne].
  - exfalso. apply Hnot. left.
  - rewrite IH; [reflexivity |]. intros Hin. apply Hnot. now right.
Qed.

Lemma interface_of_lines_skip (skipped rest : list string) :
  (forall line, line ∈ skipped -> Py.contains "dev" line = false) ->
  interface_of_lines (skipped ++ rest) = interface_of_lines rest.
Proof.
  induction skipped as [| line skipped IH]; intros Hno; simpl; [reflexivity |].
  rewrite (Hno line) by left. apply IH. intros l Hl. apply Hno. now right.
Qed.

(** X15. When [ip] exits with code 0, the first line of its output in which
    "dev" occurs decides: if the fields of that line are [before], "dev",
    [name] and more, with no field "dev" in [before], the interface
    returned is [name], whatever the other lines hold. *)
Theorem get_active_network_interface_from_dev (stdout : string)
    (skipped rest : list string) (line name : string) (before after : list string) :
  Py.splitlines stdout = skipped ++ line :: rest ->
  (forall l, l ∈ skipped -> Py.contains "dev" l = false) ->
  Py.contains "dev" line = true ->
  Py.split line = before ++ "dev"%string :: name :: after ->
  "dev"%string ∉ before ->
  get_active_network_interface_from (Ret (0, stdout)) = name.
Proof.
  intros Hlines Hskip Hdev Hparts Hbefore.
  unfold get_active_network_interface_from, try_except, res_bind. cbn [fst snd].
  destruct (decide (0 = 0)) as [_ | H]; [| congruence].
  rewrite Hlines, (interface_of_lines_skip skipped _ Hskip). simpl.
  rewrite Hdev, Hparts. unfold res_bind.
  rewrite (list_index_first "dev" before (name :: after) Hbefore).
  unfold Py.index.
  replace ((before ++ "dev"%string :: name :: after) !! S (length before))
    with (Some name); [reflexivity |].
  symmetry. rewrite lookup_app_r by lia.
  replace (S (length before) - length before)%nat with 1%nat by lia. reflexivity.
Qed.

Lemma get_active_network_interface_from_dev_witness :
  get_active_network_interface_from
    (Ret (0, ("RTNETLINK note" +:+ nl
              +:+ "1.0.0.0 via 10.0.0.1 dev eth0 src 10.0.0.7" +:+ nl)%string))
    = "eth0"%string.
Proof.
  apply (get_active_network_interface_from_dev _
           ["RTNETLINK note"%string] [] "1.0.0.0 via 10.0.0.1 dev eth0 src 10.0.0.7"
           "eth0" ["1.0.0.0"; "via"; "10.0.0.1"]%string ["src"; "10.0.0.7"]%string).
  - reflexivity.
  - intros l Hl. apply list_elem_of_singleton in Hl as ->. reflexivity.
  - reflexivity.
  - reflexivity.
  - intros H. repeat (apply elem_of_cons in H as [H | H]; [discriminate |]).
    inversion H.
Defined.

(** X16. [get_active_network_interface] falls back to "wlan0": when [run]
    raises, when the return code is not 0, when no line of the output has
    "dev" in it, and when the first line that has "dev" in it has no field
    "dev" (as in a line that only says "device") or has it as its last
    field. In the last two cases later lines are not looked at, even if one
    of them names an interface. *)
Theorem get_active_network_interface_from_fallback :
  (forall e, get_active_network_interface_from (Raise e) = "wlan0"%string) /\
  (forall code stdout, code <> 0 ->
     get_active_network_interface_from (Ret (code, stdout)) = "wlan0"%string) /\
  (forall stdout,
     (forall l, l ∈ Py.splitlines stdout -> Py.contains "dev" l = false) ->
     get_active_network_interface_from (Ret (0, stdout)) = "wlan0"%string) /\
  (forall stdout skipped rest line,
     Py.splitlines stdout = skipped ++ line :: rest ->
     (forall l, l ∈ skipped -> Py.contains "dev" l = false) ->
     Py.contains "dev" line = true ->
     "dev"%string ∉ Py.split line \/
       (exists before, Py.split line = before ++ ["dev"%string] /\ "dev"%string ∉ before) ->
     get_active_network_interface_from (Ret (0, stdout)) = "wlan0"%string).
Proof.
  unfold get_active_network_interface_from, try_except, res_bind.
  split; [reflexivity |]. split; [| split].
  - intros code stdout Hcode. cbn [fst snd].
    destruct (decide (code = 0)); [contradiction | reflexivity].
  - intros stdout Hno. cbn [fst snd].
    destruct (decide (0 = 0)) as [_ | H]; [| congruence].
    rewrite <- (app_nil_r (Py.splitlines stdout)).
    rewrite (interface_of_lines_skip _ [] Hno). reflexivity.
  - intros stdout skipped rest line Hlines Hskip Hdev Hcase. cbn [fst snd].
    destruct (decide (0 = 0)) as [_ | H]; [| congruence].
    rewrite Hlines, (interface_of_lines_skip skipped _ Hskip). simpl.
    rewrite Hdev. unfold res_bind.
    destruct Hcase as [Habsent | (before & Hparts & Hbefore)].
    + rewrite (list_index_absent _ _ Habsent). reflexivity.
    + rewrite Hparts, (list_index_first "dev" before [] Hbefore).
      unfold Py.index. rewrite lookup_ge_None_2; [reflexivity |].
      rewrite length_app. simpl. lia.
Qed.

Lemma get_active_network_interface_from_fallback_witness :
  get_active_network_interface_from (Ret (2, "dev eth0"%string)) = "wlan0"%string /\
  get_active_network_interface_from
    (Ret (0, ("no such device" +:+ nl +:+ "1.0.0.0 dev eth0" +:+ nl)%string))
    = "wlan0"%string.
Proof.
  split.
  - apply (proj1 (proj2 get_active_network_interface_from_fallback)). lia.
  - apply (proj2 (proj2 (proj2 get_active_network_interface_from_fallback)) _
             [] ["1.0.0.0 dev eth0"%string] "no such device").
    + reflexivity.
    + intros l Hl. inversion Hl.
    + reflexivity.
    + left. intros H. repeat (apply elem_of_cons in H as [H | H]; [discriminate |]).
      inversion H.
Defined.
